(** * BBC news article analysis: a shallow embedding of [a.py]

    The program downloads an article, summarises it with a summarisation
    model and turns the verdict of a sentiment model into a signed
    "importance score".  The three collaborators (article extraction, the
    two models) and the Streamlit display are outside the program: they are
    modelled as oracles over an abstract world state, and every interaction
    is recorded in a trace. *)

From Stdlib Require Import String Ascii ZArith List Bool Lia.
From Stdlib Require Import Floats.SpecFloat.
Import ListNotations.

Set Implicit Arguments.

(** ** Python strings *)

(** A Python [str] is a sequence of Unicode code points. *)
Definition char := N.
Definition pystr := list char.

(** An ASCII literal of the source as a [pystr]. *)
Definition lit (s : string) : pystr :=
  map N_of_ascii (list_ascii_of_string s).

Definition pystr_eqb (a b : pystr) : bool :=
  if list_eq_dec N.eq_dec a b then true else false.

(** [str.isspace] on one code point: the code points CPython treats as
    whitespace, and so the separators of [str.split()]. *)
Definition isspace (c : char) : bool :=
  ((9 <=? c) && (c <=? 13) || (28 <=? c) && (c <=? 32)
   || (c =? 133) || (c =? 160) || (c =? 5760)
   || (8192 <=? c) && (c <=? 8202)
   || (c =? 8232) || (c =? 8233) || (c =? 8239) || (c =? 8287)
   || (c =? 12288))%N.

Definition flush (tok : pystr) : list pystr :=
  match tok with
  | [] => []
  | _ => [tok]
  end.

(** [text.split()]: scan left to right, [tok] is the token being read. *)
Fixpoint split_from (tok s : pystr) : list pystr :=
  match s with
  | [] => flush tok
  | c :: s' =>
      if isspace c then flush tok ++ split_from [] s'
      else split_from (tok ++ [c]) s'
  end.

Definition split (s : pystr) : list pystr := split_from [] s.

(** [sep.join(ws)] *)
Fixpoint join (sep : pystr) (ws : list pystr) : pystr :=
  match ws with
  | [] => []
  | [w] => w
  | w :: ws' => w ++ sep ++ join sep ws'
  end.

(** [str.upper] on one code point: ASCII letters by the ASCII rule, every
    other code point by the Unicode database's full upper-case mapping
    [table] (which may give several code points). *)
Definition upper_char (table : char -> pystr) (c : char) : pystr :=
  if (c <? 128)%N
  then [if (97 <=? c)%N && (c <=? 122)%N then (c - 32)%N else c]
  else table c.

Definition upper (table : char -> pystr) (s : pystr) : pystr :=
  flat_map (upper_char table) s.

(** What it means for a list of words to be whitespace-delimited tokens. *)
Definition is_token (w : pystr) : Prop :=
  w <> [] /\ Forall (fun c => isspace c = false) w.

Definition is_prefix (p s : pystr) : Prop := exists r, s = p ++ r.

(** ** Python numbers *)

Definition prec : Z := 53.
Definition emax : Z := 1024.

(** A Python [float] is an IEEE 754 binary64 value. *)
Definition float := spec_float.

Definition fmul : float -> float -> float := SFmul prec emax.
Definition fneg : float -> float := SFopp.

(** The float nearest to the rational [n / d] with sign [s]
    (round to nearest, ties to even); [n], [d] positive. *)
Definition float_of_ratio (s : bool) (n d : positive) : float :=
  let '(mz, ez, lz) := SFdiv_core_binary prec emax (Zpos n) 0 (Zpos d) 0 in
  binary_round_aux prec emax s mz ez lz.

(** [float(z)] for an [int] of the source. *)
Definition float_of_int (z : Z) : float := binary_normalize prec emax z 0 false.

(** The integer nearest to [n / d], ties to even ([d] positive). *)
Definition nearest_even (n d : Z) : Z :=
  let q := (n / d)%Z in
  let r := (n mod d)%Z in
  match (2 * r ?= d)%Z with
  | Lt => q
  | Gt => (q + 1)%Z
  | Eq => if Z.even q then q else (q + 1)%Z
  end.

(** [round(x, 2)] on a float: the exact value of [x] is rounded to two
    decimal places, ties to even, and the decimal so obtained is converted
    back to the nearest float; the sign of [x] is kept (also on zero), and
    infinities and NaN round to themselves. *)
Definition round2 (x : float) : float :=
  match x with
  | S754_finite s m e =>
      let n := (Zpos m * 100 * 2 ^ Z.max e 0)%Z in
      let d := (2 ^ Z.max (- e) 0)%Z in
      match nearest_even n d with
      | Zpos q => float_of_ratio s q 100
      | _ => S754_zero s
      end
  | _ => x
  end.

Inductive pynum :=
| PyInt (z : Z)
| PyFloat (f : float).

(** Exact comparison of a float with an integer, as Python compares a
    [float] with an [int]; [None] for NaN. *)
Definition float_cmp_int (x : float) (z : Z) : option comparison :=
  match x with
  | S754_nan => None
  | S754_infinity s => Some (if s then Lt else Gt)
  | S754_zero _ => Some (0 ?= z)%Z
  | S754_finite s m e =>
      let v := cond_Zopp s (Zpos m) in
      Some (if (0 <=? e)%Z then (v * 2 ^ e ?= z)%Z else (v ?= z * 2 ^ (- e))%Z)
  end.

(** [n <= z] and [z <= n] for a Python number [n] and an integer [z]. *)
Definition num_le_int (n : pynum) (z : Z) : bool :=
  match n with
  | PyInt a => (a <=? z)%Z
  | PyFloat f =>
      match float_cmp_int f z with
      | Some (Lt | Eq) => true
      | _ => false
      end
  end.

Definition int_le_num (z : Z) (n : pynum) : bool :=
  match n with
  | PyInt a => (z <=? a)%Z
  | PyFloat f =>
      match float_cmp_int f z with
      | Some (Gt | Eq) => true
      | _ => false
      end
  end.

Definition num_eq_int (n : pynum) (z : Z) : bool :=
  match n with
  | PyInt a => (a =? z)%Z
  | PyFloat f =>
      match float_cmp_int f z with
      | Some Eq => true
      | _ => false
      end
  end.

(** A Python value as the program passes them around. *)
Inductive pyval :=
| VNone
| VStr (s : pystr)
| VNum (n : pynum).

(** ** The world outside the program *)

(** A call either returns or raises an [Exception]; the exception is kept
    as the text [str(e)] that the handlers display. *)
Inductive outcome (A : Type) :=
| Returned (a : A)
| Raised (e : pystr).
Arguments Raised {A} e.

(** One row of the results table (a dict of the [results] list). *)
Record row := {
  Title : pystr;
  URL : pystr;
  Summary : pyval;
  Sentiment : pyval;
  Importance_Score : pyval
}.

(** The Streamlit calls of the program. *)
Inductive widget :=
| st_error (msg : pystr)
| st_header (s : pystr)
| st_subheader (s : pystr)
| st_write (args : list pyval)
| st_markdown (s : pystr)
| st_table (df : list row)
| st_success (s : pystr).

(** What the program does to the outside, in order. *)
Inductive event :=
| Download (url : pystr) (r : outcome pystr)
| Summarize (text : pystr) (max_length min_length : Z) (do_sample : bool)
    (r : outcome pystr)
| Classify (text : pystr) (r : outcome (pystr * float))
| Display (w : widget).

Section Pipeline.

(** The state of the outside world (network, model weights, ...). *)
Variable Sigma : Type.

(** The three collaborators.
    [article_text url]: [Article(url)], [download()], [parse()], [.text];
    [summarizer text max_length min_length do_sample]: the summarisation
    pipeline and the selection [[0]['summary_text']] of its answer;
    [sentiment_analyzer text]: the sentiment pipeline and the selection
    [[0]] of its answer, as the pair of ['label'] and ['score']. *)
Record collaborators := {
  article_text : pystr -> Sigma -> outcome pystr * Sigma;
  summarizer : pystr -> Z -> Z -> bool -> Sigma -> outcome pystr * Sigma;
  sentiment_analyzer : pystr -> Sigma -> outcome (pystr * float) * Sigma
}.

(** The Unicode upper-case table used by [str.upper] beyond ASCII. *)
Variable unicode_upper : char -> pystr.
Variable W : collaborators.

(** Computations: read and change the world, return or raise, and emit
    events. *)
Definition M (A : Type) : Type := Sigma -> outcome A * Sigma * list event.

Definition ret {A} (a : A) : M A := fun w => (Returned a, w, []).

Definition bind {A B} (m : M A) (f : A -> M B) : M B :=
  fun w =>
    match m w with
    | (Returned a, w1, t1) =>
        let '(r, w2, t2) := f a w1 in (r, w2, t1 ++ t2)
    | (Raised e, w1, t1) => (Raised e, w1, t1)
    end.

(** [try: body  except Exception as e: handler e] *)
Definition try_except {A} (body : M A) (handler : pystr -> M A) : M A :=
  fun w =>
    match body w with
    | (Returned a, w1, t1) => (Returned a, w1, t1)
    | (Raised e, w1, t1) =>
        let '(r, w2, t2) := handler e w1 in (r, w2, t1 ++ t2)
    end.

Definition st (x : widget) : M unit := fun w => (Returned tt, w, [Display x]).

Definition call_article (url : pystr) : M pystr :=
  fun w => let '(r, w1) := article_text W url w in (r, w1, [Download url r]).

Definition call_summarizer (text : pystr) (max_length min_length : Z)
    (do_sample : bool) : M pystr :=
  fun w =>
    let '(r, w1) := summarizer W text max_length min_length do_sample w in
    (r, w1, [Summarize text max_length min_length do_sample r]).

Definition call_sentiment (text : pystr) : M (pystr * float) :=
  fun w =>
    let '(r, w1) := sentiment_analyzer W text w in (r, w1, [Classify text r]).

Notation "x <- m ;; k" := (bind m (fun x => k))
  (at level 61, m at next level, right associativity).
Notation "m ;;; k" := (bind m (fun _ => k))
  (at level 61, right associativity).

(** *** The functions of [a.py] *)

Definition extract_article_text (url : pystr) : M (option pystr) :=
  try_except
    (text <- call_article url ;;
     ret (Some text))
    (fun e =>
       st (st_error (lit "Error fetching article: " ++ e)) ;;;
       ret None).

Definition max_input : nat := 1024.

(** The text [generate_summary] hands to the summariser. *)
Definition summary_input (text : pystr) : pystr :=
  let words := split text in
  if Nat.ltb max_input (length words)
  then join (lit " ") (firstn max_input words)
  else text.

Definition generate_summary (text : pystr) : M pystr :=
  let text := summary_input text in
  try_except
    (call_summarizer text 130 30 false)
    (fun e =>
       st (st_error (lit "Error in summarization: " ++ e)) ;;;
       ret (lit "Summary generation failed.")).

(** [score * 100 if label.upper() == "POSITIVE" else -score * 100]; the
    unary minus binds tighter than the product. *)
Definition importance (label : pystr) (score : float) : float :=
  if pystr_eqb (upper unicode_upper label) (lit "POSITIVE")
  then fmul score (float_of_int 100)
  else fmul (fneg score) (float_of_int 100).

Definition analyze_sentiment (text : pystr) : M (pystr * pynum) :=
  try_except
    (sentiment <- call_sentiment (firstn 512 text) ;;
     let '(label, score) := sentiment in
     let importance_score := importance label score in
     ret (label, PyFloat (round2 importance_score)))
    (fun e =>
       st (st_error (lit "Error in sentiment analysis: " ++ e)) ;;;
       ret (lit "N/A", PyInt 0)).

(** [not article_text or len(article_text) < 100] on what
    [extract_article_text] returned: [None] and the empty string are
    falsy, and [len] is only reached on a string. *)
Definition too_short (article_text : option pystr) : bool :=
  match article_text with
  | None => true
  | Some text =>
      match text with [] => true | _ => false end
      || Nat.ltb (length text) 100
  end.

Definition analyze_article (url : pystr) : M (pyval * pyval * pyval) :=
  article_text <- extract_article_text url ;;
  match article_text with
  | Some text =>
      if too_short article_text then ret (VNone, VNone, VNone)
      else
        summary <- generate_summary text ;;
        sl <- analyze_sentiment text ;;
        let '(sentiment_label, importance_score) := sl in
        ret (VStr summary, VStr sentiment_label, VNum importance_score)
  | None => ret (VNone, VNone, VNone)
  end.

(** *** The "Preloaded Articles" branch of the page *)

Definition is_none (v : pyval) : bool :=
  match v with VNone => true | _ => false end.

(** The body of [for title, url in preloaded_articles.items()], with the
    list [results] threaded through. *)
Fixpoint for_articles (items : list (pystr * pystr)) (results : list row)
  : M (list row) :=
  match items with
  | [] => ret results
  | (title, url) :: rest =>
      st (st_subheader title) ;;;
      st (st_write [VStr (lit "[Read the article](" ++ url ++ lit ")")]) ;;;
      r <- analyze_article url ;;
      let '(summary, sentiment_label, importance_score) := r in
      if is_none summary then
        st (st_error (lit
          "Failed to extract article text or article is too short for analysis.")) ;;;
        for_articles rest results
      else
        st (st_write [VStr (lit "**Summary:**"); summary]) ;;;
        st (st_write [VStr (lit "**Sentiment:**"); sentiment_label]) ;;;
        st (st_write [VStr (lit "**Importance Score:**"); importance_score]) ;;;
        let results := results ++
          [{| Title := title; URL := url; Summary := summary;
              Sentiment := sentiment_label;
              Importance_Score := importance_score |}] in
        st (st_markdown (lit "---")) ;;;
        for_articles rest results
  end.

Definition preloaded_mode (items : list (pystr * pystr)) : M unit :=
  st (st_header (lit "Preloaded BBC Articles Analysis")) ;;;
  results <- for_articles items [] ;;
  match results with
  | [] => ret tt
  | _ =>
      st (st_subheader (lit "Tabulated Results")) ;;;
      st (st_table results)
  end.

End Pipeline.

Definition preloaded_articles : list (pystr * pystr) :=
  [ (lit "BBC Article 1", lit "https://www.bbc.com/news/world-us-canada-66801985");
    (lit "BBC Article 2", lit "https://www.bbc.com/news/technology-66804779");
    (lit "BBC Article 3", lit "https://www.bbc.com/news/science-environment-66799975") ].

(** ** The page around the pipeline *)

(** The widgets of the page that the functions above do not use.  An input
    widget is recorded with the value it returned. *)
Inductive page_widget :=
| st_title (s : pystr)
| st_sidebar_radio (label : pystr) (options : list pystr) (selected : pystr)
| st_text_input (label : pystr) (value : pystr)
| st_button (label : pystr) (pressed : bool).

(** What a run of the script does, in order: the events of the functions
    above and the widgets of the page. *)
Inductive page_event :=
| Inner (ev : event)
| Widget (w : page_widget).

(** What the user has set on the page when the script runs: the option of
    the sidebar, the content of the text field, and whether the button was
    pressed. *)
Record session := {
  selected_mode : pystr;
  typed_url : pystr;
  button_pressed : bool
}.

(** The text under the title: a triple-quoted string of three lines, with
    the apostrophe U+2019. *)
Definition intro_text : pystr :=
  [10%N]
  ++ lit "This app extracts BBC article text, generates a brief summary, and calculates an "
  ++ [10%N]
  ++ lit "importance score based on the article" ++ [8217%N]
  ++ lit "s sentiment (positive/negative) using text mining algorithms."
  ++ [10%N].

Section Page.

Variable Sigma : Type.
Variable unicode_upper : char -> pystr.
Variable W : collaborators Sigma.
Variable user : session.

(** Computations of the page. *)
Definition P (A : Type) : Type := Sigma -> outcome A * Sigma * list page_event.

Definition page_ret {A} (a : A) : P A := fun w => (Returned a, w, []).

Definition page_bind {A B} (m : P A) (f : A -> P B) : P B :=
  fun w =>
    match m w with
    | (Returned a, w1, t1) =>
        let '(r, w2, t2) := f a w1 in (r, w2, t1 ++ t2)
    | (Raised e, w1, t1) => (Raised e, w1, t1)
    end.

(** A computation of the functions above, run on the page. *)
Definition inner {A} (m : M Sigma A) : P A :=
  fun w => let '(r, w1, t) := m w in (r, w1, map Inner t).

Definition title (s : pystr) : P unit :=
  fun w => (Returned tt, w, [Widget (st_title s)]).

Definition sidebar_radio (label : pystr) (options : list pystr) : P pystr :=
  fun w =>
    (Returned (selected_mode user), w,
     [Widget (st_sidebar_radio label options (selected_mode user))]).

Definition text_input (label : pystr) : P pystr :=
  fun w =>
    (Returned (typed_url user), w,
     [Widget (st_text_input label (typed_url user))]).

Definition button (label : pystr) : P bool :=
  fun w =>
    (Returned (button_pressed user), w,
     [Widget (st_button label (button_pressed user))]).

Notation "x <- m ;; k" := (page_bind m (fun x => k))
  (at level 61, m at next level, right associativity).
Notation "m ;;; k" := (page_bind m (fun _ => k))
  (at level 61, right associativity).

(** [bool(s)] for a string. *)
Definition truthy (s : pystr) : bool :=
  match s with [] => false | _ => true end.

(** The "Custom URL" branch. *)
Definition custom_mode : P unit :=
  inner (st (st_header (lit "Custom BBC Article Analysis"))) ;;;
  custom_url <- text_input (lit "Enter the URL of a BBC article:") ;;
  pressed <- button (lit "Generate Analysis") ;;
  if pressed && truthy custom_url then
    r <- inner (analyze_article unicode_upper W custom_url) ;;
    let '(summary, sentiment_label, importance_score) := r in
    if is_none summary then
      inner (st (st_error (lit
        "Failed to extract article text or the article text is too short for analysis.")))
    else
      inner (st (st_write [VStr (lit "**Summary:**"); summary])) ;;;
      inner (st (st_write [VStr (lit "**Sentiment:**"); sentiment_label])) ;;;
      inner (st (st_write [VStr (lit "**Importance Score:**"); importance_score])) ;;;
      inner (st (st_success (lit "Analysis complete!")))
  else page_ret tt.

(** The script from its title on, with the two pipelines loaded. *)
Definition page : P unit :=
  title (lit "BBC News Article Analysis") ;;;
  inner (st (st_write [VStr intro_text])) ;;;
  analysis_mode <- sidebar_radio (lit "Select Analysis Mode")
                     [lit "Preloaded Articles"; lit "Custom URL"] ;;
  if pystr_eqb analysis_mode (lit "Preloaded Articles") then
    inner (preloaded_mode unicode_upper W preloaded_articles)
  else if pystr_eqb analysis_mode (lit "Custom URL") then
    custom_mode
  else page_ret tt.

End Page.

(** The result, the world and the trace of a run of the page. *)
Definition page_result {A Sigma} (x : outcome A * Sigma * list page_event)
  : outcome A := fst (fst x).

Definition page_world {A Sigma} (x : outcome A * Sigma * list page_event)
  : Sigma := snd (fst x).

Definition page_trace {A Sigma} (x : outcome A * Sigma * list page_event)
  : list page_event := snd x.

(** The events of the functions and the widgets in a trace of the page. *)
Definition inner_events (tr : list page_event) : list event :=
  flat_map (fun ev => match ev with Inner e => [e] | Widget _ => [] end) tr.

Definition page_widgets (tr : list page_event) : list page_widget :=
  flat_map (fun ev => match ev with Widget w => [w] | Inner _ => [] end) tr.

(** ** Reading the result and the trace of a run *)

Definition result {A Sigma} (x : outcome A * Sigma * list event) : outcome A :=
  fst (fst x).

Definition world_after {A Sigma} (x : outcome A * Sigma * list event) : Sigma :=
  snd (fst x).

Definition trace {A Sigma} (x : outcome A * Sigma * list event) : list event :=
  snd x.

(** The texts submitted to the summarisation model, in order. *)
Definition summarizer_inputs (tr : list event) : list pystr :=
  flat_map (fun ev => match ev with Summarize t _ _ _ _ => [t] | _ => [] end) tr.

(** The texts submitted to the sentiment model, in order. *)
Definition sentiment_inputs (tr : list event) : list pystr :=
  flat_map (fun ev => match ev with Classify t _ => [t] | _ => [] end) tr.

(** The outcomes of the article downloads, in order. *)
Definition downloads (tr : list event) : list (pystr * outcome pystr) :=
  flat_map (fun ev => match ev with Download u r => [(u, r)] | _ => [] end) tr.

(** The outcomes of the summariser calls, in order. *)
Definition summaries (tr : list event) : list (outcome pystr) :=
  flat_map (fun ev => match ev with Summarize _ _ _ _ r => [r] | _ => [] end) tr.

(** The tables rendered, in order. *)
Definition tables (tr : list event) : list (list row) :=
  flat_map (fun ev => match ev with Display (st_table df) => [df] | _ => [] end) tr.

(** The gate of [analyze_article] on the outcome of the extraction. *)
Definition passes_gate (r : outcome pystr) : bool :=
  match r with
  | Returned text => Nat.leb 100 (length text)
  | Raised _ => false
  end.

(** The summary shown for an outcome of the summariser. *)
Definition shown_summary (r : outcome pystr) : pyval :=
  match r with
  | Returned s => VStr s
  | Raised _ => VStr (lit "Summary generation failed.")
  end.

(** The outcomes of the sentiment model calls, in order. *)
Definition classifications (tr : list event) : list (outcome (pystr * float)) :=
  flat_map (fun ev => match ev with Classify _ r => [r] | _ => [] end) tr.

(** The label and the score shown for an outcome of the sentiment model. *)
Definition shown_label (r : outcome (pystr * float)) : pyval :=
  match r with
  | Returned (label, _) => VStr label
  | Raised _ => VStr (lit "N/A")
  end.

Definition shown_score (table : char -> pystr) (r : outcome (pystr * float))
  : pyval :=
  match r with
  | Returned (label, score) => VNum (PyFloat (round2 (importance table label score)))
  | Raised _ => VNum (PyInt 0)
  end.

(** The article a row stands for. *)
Definition row_source (r : row) : pystr * pystr := (Title r, URL r).

(** The articles whose download passed the gate, given the outcomes of the
    downloads in the order of the articles. *)
Definition passed_articles (items : list (pystr * pystr))
    (fetched : list (pystr * outcome pystr)) : list (pystr * pystr) :=
  map fst (filter (fun x => passes_gate (snd (snd x))) (combine items fetched)).

(** 1025 one-letter words separated by single spaces. *)
Definition spaced_text : pystr := join (lit " ") (repeat (lit "a") 1025).





(** The models answer the same text in the same way whatever the state of
    the world, the summariser when it is asked not to sample. *)
Definition deterministic_summarizer {Sigma} (W : collaborators Sigma) : Prop :=
  forall text max_length min_length w1 w2,
    fst (summarizer W text max_length min_length false w1) =
    fst (summarizer W text max_length min_length false w2).

Definition deterministic_sentiment {Sigma} (W : collaborators Sigma) : Prop :=
  forall text w1 w2,
    fst (sentiment_analyzer W text w1) = fst (sentiment_analyzer W text w2).

(** The sentiment model is a binary classifier with a confidence in
    [0, 1]. *)
Definition binary_classifier {Sigma} (W : collaborators Sigma) : Prop :=
  forall text w label score w1,
    sentiment_analyzer W text w = (Returned (label, score), w1) ->
    (label = lit "POSITIVE" \/ label = lit "NEGATIVE") /\
    int_le_num 0 (PyFloat score) = true /\ num_le_int (PyFloat score) 1 = true.

(** ** Worlds to run the program in *)

(** An article of 40 words, 199 characters. *)
Definition long_text : pystr := join (lit " ") (repeat (lit "news") 40).

(** The floats written [0.87] and [0.42]. *)
Definition f_0_87 : float := S754_finite false 7836263351624663 (-53).
Definition f_0_42 : float := S754_finite false 7566047373982433 (-54).

(** In these worlds the state counts the calls made so far.

    Every collaborator works; the second preloaded article is too short.
    The summariser only depends on the state when it samples, and the
    sentiment model finds a text positive when it starts with an "n". *)
Definition working_world : collaborators nat := {|
  article_text := fun url w =>
    (if pystr_eqb url (lit "https://www.bbc.com/news/technology-66804779")
     then Returned (lit "Page not found") else Returned long_text, S w);
  summarizer := fun text _ _ do_sample w =>
    (Returned (if do_sample then repeat 46%N w else firstn 30 text), S w);
  sentiment_analyzer := fun text w =>
    (Returned (if (hd 0 text =? 110)%N then (lit "POSITIVE", f_0_87)
               else (lit "NEGATIVE", f_0_42)), S w)
|}.

(** The network is down and both models raise. *)
Definition broken_world : collaborators nat := {|
  article_text := fun url w => (Raised (lit "timed out"), S w);
  summarizer := fun text _ _ _ w => (Raised (lit "index out of range"), S w);
  sentiment_analyzer := fun text w => (Raised (lit "out of memory"), S w)
|}.

(** The articles download, the models raise. *)
Definition degraded_world : collaborators nat := {|
  article_text := fun url w => (Returned long_text, S w);
  summarizer := fun text _ _ _ w => (Raised (lit "index out of range"), S w);
  sentiment_analyzer := fun text w => (Raised (lit "out of memory"), S w)
|}.

(** A sentiment model with a third label. *)
Definition neutral_world : collaborators nat := {|
  article_text := fun url w => (Returned long_text, S w);
  summarizer := fun text _ _ _ w => (Returned (firstn 30 text), S w);
  sentiment_analyzer := fun text w => (Returned (lit "NEUTRAL", f_0_42), S w)
|}.

(** An upper-case table that leaves the code points beyond ASCII alone. *)
Definition no_table : char -> pystr := fun c => [c].

(** An upper-case table with the entry of the dotless i, U+0131. *)
Definition dotless_table : char -> pystr :=
  fun c => if (c =? 305)%N then [73%N] else [c].

Definition first_url : pystr :=
  lit "https://www.bbc.com/news/world-us-canada-66801985".

Definition second_url : pystr :=
  lit "https://www.bbc.com/news/technology-66804779".

(** ** More readers of a trace *)

(** What is displayed, in order. *)
Definition displayed (tr : list event) : list widget :=
  flat_map (fun ev => match ev with Display x => [x] | _ => [] end) tr.

(** The calls to the three collaborators, in order. *)
Definition is_call (ev : event) : bool :=
  match ev with Display _ => false | _ => true end.

Definition calls (tr : list event) : list event := filter is_call tr.

(** The report a handler displays for an outcome. *)
Definition report {A} (prefix : string) (r : outcome A) : list widget :=
  match r with
  | Returned _ => []
  | Raised e => [st_error (lit prefix ++ e)]
  end.

(** The notice of the batch mode for an article that did not pass. *)
Definition is_failure_notice (x : widget) : bool :=
  match x with
  | st_error msg =>
      pystr_eqb msg (lit
        "Failed to extract article text or article is too short for analysis.")
  | _ => false
  end.

Definition subheaders (tr : list event) : list pystr :=
  flat_map (fun ev => match ev with Display (st_subheader s) => [s] | _ => [] end) tr.

(** The notices displayed, in order. *)
Definition notices (tr : list event) : list widget :=
  filter is_failure_notice (displayed tr).

(** The sessions of the examples. *)
Definition idle_session : session :=
  {| selected_mode := lit "Custom URL"; typed_url := first_url;
     button_pressed := false |}.

Definition custom_session : session :=
  {| selected_mode := lit "Custom URL"; typed_url := first_url;
     button_pressed := true |}.

Definition batch_session : session :=
  {| selected_mode := lit "Preloaded Articles"; typed_url := first_url;
     button_pressed := true |}.

(** ** Magnitudes *)

(** The smallest integer not below the value a shift record stands for, in
    units of its last place. *)
Definition ceil_of (mrs : shr_record) : Z :=
  (shr_m mrs + (if shr_r mrs || shr_s mrs then 1 else 0))%Z.

(** A float of magnitude at most 100 = 25 * 2^2 that is zero or has the
    sign [neg]. *)
Definition in_range (neg : bool) (x : float) : Prop :=
  match x with
  | S754_zero _ => True
  | S754_finite s m e => s = neg /\ (e <= 2)%Z /\ (Zpos m <= 25 * 2 ^ (2 - e))%Z
  | _ => False
  end.

(** ** Proof steps *)

(** Decide a goal on the outcome of an integer comparison. *)
Ltac by_compare :=
  match goal with
  | |- context [(?a ?= ?b)%Z] =>
      destruct (Z.compare_spec a b); first [reflexivity | lia | nia]
  end.

(** Read a trace through the equations of the trace readers. *)
Create Rewrite HintDb observe.
Ltac observe := autorewrite with observe; cbv iota; cbn [app].

(** * Properties *)

(** ** Splitting and joining *)

Lemma flush_tokens tok :
  Forall (fun c => isspace c = false) tok -> Forall is_token (flush tok).
Proof.
  destruct tok as [|c tok]; simpl; intros H; constructor.
  - split; [discriminate | exact H].
  - constructor.
Qed.

Lemma split_from_tokens s : forall tok,
  Forall (fun c => isspace c = false) tok -> Forall is_token (split_from tok s).
Proof.
  induction s as [|c s IH]; simpl; intros tok Htok.
  - now apply flush_tokens.
  - destruct (isspace c) eqn:Ec.
    + apply Forall_app; split; [now apply flush_tokens | apply IH; constructor].
    + apply IH, Forall_app; split; [exact Htok | now repeat constructor].
Qed.

Lemma split_tokens s : Forall is_token (split s).
Proof. apply split_from_tokens; constructor. Qed.

Lemma split_from_word w : forall tok s,
  Forall (fun c => isspace c = false) w ->
  split_from tok (w ++ s) = split_from (tok ++ w) s.
Proof.
  induction w as [|c w IH]; simpl; intros tok s Hw.
  - now rewrite app_nil_r.
  - inversion Hw as [|? ? Hc Hw']; subst. rewrite Hc, IH by assumption.
    now rewrite <- app_assoc.
Qed.

Lemma split_from_join ws : forall w,
  is_token w -> Forall is_token ws ->
  split_from [] (join (lit " ") (w :: ws)) = w :: ws.
Proof.
  induction ws as [|v ws IH]; intros w [Hne Hw] Hws.
  - simpl. pose proof (split_from_word [] [] Hw) as E.
    rewrite app_nil_r in E. rewrite E. simpl.
    destruct w; [contradiction | reflexivity].
  - inversion Hws as [|? ? Hv Hws']; subst.
    change (join (lit " ") (w :: v :: ws))
      with (w ++ lit " " ++ join (lit " ") (v :: ws)).
    rewrite split_from_word by assumption.
    change (lit " " ++ join (lit " ") (v :: ws))
      with (32%N :: join (lit " ") (v :: ws)).
    cbn [split_from app]. change (isspace 32%N) with true. cbv iota.
    rewrite IH by assumption.
    destruct w; [contradiction | reflexivity].
Qed.

(** Splitting what was joined with single spaces gives the tokens back. *)
Lemma split_join ws : Forall is_token ws -> split (join (lit " ") ws) = ws.
Proof.
  destruct ws as [|w ws]; intros H; [reflexivity |].
  inversion H; subst. now apply split_from_join.
Qed.

Lemma Forall_firstn_tokens n (ws : list pystr) :
  Forall is_token ws -> Forall is_token (firstn n ws).
Proof.
  revert n; induction ws as [|w ws IH]; intros [|n] H; simpl; try constructor;
    inversion H; subst; auto.
Qed.



Lemma length_firstn_le {A} n (l : list A) : length (firstn n l) <= n.
Proof. rewrite length_firstn. apply Nat.le_min_l. Qed.




(** ** One call of each function, unfolded *)

Section Runs.

Variable Sigma : Type.
Variable unicode_upper : char -> pystr.
Variable W : collaborators Sigma.

Lemma run_extract_article_text url w :
  extract_article_text W url w =
  match article_text W url w with
  | (Returned text, w1) => (Returned (Some text), w1, [Download url (Returned text)])
  | (Raised e, w1) =>
      (Returned None, w1,
       [Download url (Raised e);
        Display (st_error (lit "Error fetching article: " ++ e))])
  end.
Proof.
  unfold extract_article_text, try_except, bind, call_article, st, ret.
  destruct (article_text W url w) as [[text|e] w1]; reflexivity.
Qed.

Lemma run_generate_summary text w :
  generate_summary W text w =
  match summarizer W (summary_input text) 130 30 false w with
  | (Returned s, w1) =>
      (Returned s, w1,
       [Summarize (summary_input text) 130 30 false (Returned s)])
  | (Raised e, w1) =>
      (Returned (lit "Summary generation failed."), w1,
       [Summarize (summary_input text) 130 30 false (Raised e);
        Display (st_error (lit "Error in summarization: " ++ e))])
  end.
Proof.
  unfold generate_summary, try_except, bind, call_summarizer, st, ret.
  destruct (summarizer W (summary_input text) 130 30 false w) as [[s|e] w1];
    reflexivity.
Qed.

Lemma run_analyze_sentiment text w :
  analyze_sentiment unicode_upper W text w =
  match sentiment_analyzer W (firstn 512 text) w with
  | (Returned (label, score), w1) =>
      (Returned (label, PyFloat (round2 (importance unicode_upper label score))),
       w1, [Classify (firstn 512 text) (Returned (label, score))])
  | (Raised e, w1) =>
      (Returned (lit "N/A", PyInt 0), w1,
       [Classify (firstn 512 text) (Raised e);
        Display (st_error (lit "Error in sentiment analysis: " ++ e))])
  end.
Proof.
  unfold analyze_sentiment, try_except, bind, call_sentiment, st, ret.
  destruct (sentiment_analyzer W (firstn 512 text) w) as [[[label score]|e] w1];
    reflexivity.
Qed.

Lemma too_short_gate text :
  too_short (Some text) = negb (passes_gate (Returned text)).
Proof.
  unfold too_short, passes_gate.
  destruct (Nat.ltb_spec (length text) 100) as [H|H];
    destruct (Nat.leb_spec 100 (length text)) as [H'|H'];
    try (exfalso; lia).
  - apply orb_true_r.
  - destruct text; [simpl in H; lia | reflexivity].
Qed.

(** [analyze_article] when the gate closes ... *)
Lemma run_analyze_article_closed url w :
  passes_gate (fst (article_text W url w)) = false ->
  analyze_article unicode_upper W url w =
  (Returned (VNone, VNone, VNone), snd (article_text W url w),
   match fst (article_text W url w) with
   | Returned text => [Download url (Returned text)]
   | Raised e =>
       [Download url (Raised e);
        Display (st_error (lit "Error fetching article: " ++ e))]
   end).
Proof.
  intros H. unfold analyze_article, bind. rewrite run_extract_article_text.
  destruct (article_text W url w) as [[text|e] w1]; cbn [fst snd] in *;
    cbv beta iota.
  - rewrite too_short_gate, H. reflexivity.
  - reflexivity.
Qed.

(** ... and when it opens: the summary and the sentiment are computed one
    after the other on the whole text. *)
Lemma run_analyze_article_open url w text w1 :
  article_text W url w = (Returned text, w1) ->
  passes_gate (Returned text) = true ->
  let g := generate_summary W text w1 in
  let a := analyze_sentiment unicode_upper W text (world_after g) in
  exists summary label score,
    result g = Returned summary /\
    result a = Returned (label, score) /\
    analyze_article unicode_upper W url w =
    (Returned (VStr summary, VStr label, VNum score), world_after a,
     Download url (Returned text) :: trace g ++ trace a).
Proof.
  intros E H g a. subst g a.
  unfold analyze_article, bind. rewrite run_extract_article_text, E.
  cbv beta iota. rewrite too_short_gate, H. cbn [negb].
  rewrite run_generate_summary.
  destruct (summarizer W (summary_input text) 130 30 false w1) as [[s|e] w2];
    cbv beta iota; cbn [world_after fst snd];
    rewrite run_analyze_sentiment;
    destruct (sentiment_analyzer W (firstn 512 text) w2) as [[[label score]|e'] w3];
    do 3 eexists; repeat split; reflexivity.
Qed.

End Runs.

(** ** Rounding keeps magnitudes up to 100 *)

Section Rounding.

Local Open Scope Z_scope.


Lemma fexp_eq e : fexp prec emax e = Z.max (e - 53) (-1074).
Proof. reflexivity. Qed.

Lemma digits2_pos_lower m : 2 ^ (Zpos (digits2_pos m) - 1) <= Zpos m.
Proof.
  induction m as [m IH|m IH|]; simpl digits2_pos.
  - rewrite Pos2Z.inj_succ. change (Zpos m~1) with (2 * Zpos m + 1).
    replace (Z.succ (Zpos (digits2_pos m)) - 1)
      with (Z.succ (Zpos (digits2_pos m) - 1)) by lia.
    rewrite Z.pow_succ_r by lia. lia.
  - rewrite Pos2Z.inj_succ. change (Zpos m~0) with (2 * Zpos m).
    replace (Z.succ (Zpos (digits2_pos m)) - 1)
      with (Z.succ (Zpos (digits2_pos m) - 1)) by lia.
    rewrite Z.pow_succ_r by lia. lia.
  - reflexivity.
Qed.

(** A mantissa below [25 * 2^(2-e)] has at most [7 - e] digits. *)
Lemma digits_le_100 m e :
  0 <= m -> e <= 2 -> m <= 25 * 2 ^ (2 - e) -> Zdigits2 m + e <= 7.
Proof.
  intros Hm He Hb. destruct m as [|p|p]; simpl Zdigits2; try lia.
  pose proof (digits2_pos_lower p) as Hd.
  assert (Hlt : 2 ^ (Zpos (digits2_pos p) - 1) < 2 ^ (7 - e)).
  { replace (7 - e) with (5 + (2 - e)) by lia.
    rewrite Z.pow_add_r by lia. change (2 ^ 5) with 32.
    assert (0 < 2 ^ (2 - e)) by (apply Z.pow_pos_nonneg; lia). lia. }
  apply Z.pow_lt_mono_r_iff in Hlt; lia.
Qed.

Lemma shr_1_ceil mrs :
  0 <= shr_m mrs ->
  0 <= shr_m (shr_1 mrs) /\ 2 * ceil_of (shr_1 mrs) <= ceil_of mrs + 1.
Proof.
  destruct mrs as [m r s]. unfold ceil_of. simpl shr_m. intros Hm.
  destruct m as [|[p|p|]|p]; try lia; destruct r, s; simpl; lia.
Qed.

Lemma iter_shr_1_ceil p : forall mrs,
  0 <= shr_m mrs ->
  0 <= shr_m (iter_pos shr_1 p mrs) /\
  2 ^ Zpos p * ceil_of (iter_pos shr_1 p mrs) <= ceil_of mrs + 2 ^ Zpos p - 1.
Proof.
  induction p as [p IH|p IH|]; intros mrs Hm; cbn [iter_pos].
  - destruct (shr_1_ceil mrs Hm) as [H0 H1].
    destruct (IH _ H0) as [H2 H3]. destruct (IH _ H2) as [H4 H5].
    split; [exact H4 |].
    replace (Zpos p~1) with (1 + Zpos p + Zpos p) by lia.
    rewrite !Z.pow_add_r by lia. change (2 ^ 1) with 2.
    assert (0 < 2 ^ Zpos p) by (apply Z.pow_pos_nonneg; lia). nia.
  - destruct (IH _ Hm) as [H2 H3]. destruct (IH _ H2) as [H4 H5].
    split; [exact H4 |].
    replace (Zpos p~0) with (Zpos p + Zpos p) by lia.
    rewrite !Z.pow_add_r by lia.
    assert (0 < 2 ^ Zpos p) by (apply Z.pow_pos_nonneg; lia). nia.
  - destruct (shr_1_ceil mrs Hm) as [H0 H1]. split; [exact H0 |].
    change (2 ^ 1) with 2. lia.
Qed.

Lemma shr_m_of_loc m l : shr_m (shr_record_of_loc m l) = m.
Proof. destruct l as [|[]]; reflexivity. Qed.

Lemma shr_m_le_ceil mrs : shr_m mrs <= ceil_of mrs.
Proof. unfold ceil_of. destruct (shr_r mrs || shr_s mrs)%bool; lia. Qed.

Lemma round_nearest_even_ceil mrs :
  0 <= shr_m mrs ->
  0 <= round_nearest_even (shr_m mrs) (loc_of_shr_record mrs) <= ceil_of mrs.
Proof.
  destruct mrs as [m r s]. unfold ceil_of. simpl shr_m. simpl shr_r.
  simpl shr_s. intros Hm.
  destruct r, s; simpl; try destruct (Z.even m); lia.
Qed.

(** Shifting to the exponent of the format keeps a magnitude of at most
    100 on the coarser grid. *)
Lemma shr_fexp_le_100 m e l :
  0 <= m -> e <= 2 ->
  ceil_of (shr_record_of_loc m l) <= 25 * 2 ^ (2 - e) ->
  0 <= shr_m (fst (shr_fexp prec emax m e l)) /\
  snd (shr_fexp prec emax m e l) <= 2 /\
  ceil_of (fst (shr_fexp prec emax m e l))
    <= 25 * 2 ^ (2 - snd (shr_fexp prec emax m e l)).
Proof.
  intros Hm He Hc. unfold shr_fexp, shr.
  assert (Hd : Zdigits2 m + e <= 7).
  { apply digits_le_100; try assumption.
    pose proof (shr_m_le_ceil (shr_record_of_loc m l)) as H.
    rewrite shr_m_of_loc in H. lia. }
  pose proof (fexp_eq (Zdigits2 m + e)) as Hf.
  destruct (fexp prec emax (Zdigits2 m + e) - e) as [|p|p] eqn:En;
    cbn [fst snd]; rewrite ?shr_m_of_loc; try (repeat split; lia).
  destruct (@iter_shr_1_ceil p (shr_record_of_loc m l)) as [H0 H1].
  { now rewrite shr_m_of_loc. }
  repeat split; try lia.
  replace (2 - e) with ((2 - (e + Zpos p)) + Zpos p) in Hc by lia.
  rewrite Z.pow_add_r in Hc by lia.
  assert (0 < 2 ^ Zpos p) by (apply Z.pow_pos_nonneg; lia).
  assert (0 < 2 ^ (2 - (e + Zpos p))) by (apply Z.pow_pos_nonneg; lia).
  nia.
Qed.

(** Rounding a magnitude of at most 100 to the format gives a float of
    magnitude at most 100 with the same sign, never NaN or an infinity. *)
Lemma binary_round_aux_le_100 s mx ex lx :
  0 <= mx -> ex <= 2 ->
  ceil_of (shr_record_of_loc mx lx) <= 25 * 2 ^ (2 - ex) ->
  in_range s (binary_round_aux prec emax s mx ex lx).
Proof.
  intros Hm He Hc. unfold binary_round_aux.
  destruct (shr_fexp_le_100 lx Hm He Hc) as (H0 & H1 & H2).
  destruct (shr_fexp prec emax mx ex lx) as [mrs1 e1]. cbn [fst snd] in *.
  pose proof (round_nearest_even_ceil mrs1 H0) as [H3 H4].
  set (m2 := round_nearest_even (shr_m mrs1) (loc_of_shr_record mrs1)) in *.
  assert (Hc2 : ceil_of (shr_record_of_loc m2 loc_Exact) <= 25 * 2 ^ (2 - e1)).
  { unfold ceil_of. cbn [shr_record_of_loc shr_m shr_r shr_s orb]. lia. }
  destruct (shr_fexp_le_100 loc_Exact H3 H1 Hc2) as (H5 & H6 & H7).
  destruct (shr_fexp prec emax m2 e1 loc_Exact) as [mrs2 e2].
  cbn [fst snd] in *.
  pose proof (shr_m_le_ceil mrs2) as H8.
  destruct (shr_m mrs2) as [|m|m]; [exact I | | lia].
  replace (e2 <=? emax - prec) with true
    by (symmetry; apply Z.leb_le; unfold emax, prec; lia).
  cbv beta iota. unfold in_range. repeat split; lia.
Qed.

Lemma float_of_int_100 :
  float_of_int 100 = S754_finite false 7036874417766400 (-46).
Proof. reflexivity. Qed.

(** A confidence in [0, 1] is a zero or a positive float [m * 2^e] with
    [m <= 2^-e]. *)
Lemma unit_interval c :
  int_le_num 0 (PyFloat c) = true -> num_le_int (PyFloat c) 1 = true ->
  (exists s, c = S754_zero s) \/
  (exists m e, c = S754_finite false m e /\ e <= 0 /\ Zpos m <= 2 ^ (- e)).
Proof.
  destruct c as [s|s| |s m e]; cbn [int_le_num num_le_int float_cmp_int];
    intros H0 H1.
  - left. now exists s.
  - destruct s; discriminate.
  - discriminate.
  - right. exists m, e.
    destruct (Z.leb_spec 0 e) as [He|He].
    + assert (Hp : 0 < 2 ^ e) by (apply Z.pow_pos_nonneg; lia).
      destruct s; cbn [cond_Zopp] in *.
      * destruct (Z.compare_spec (- Zpos m * 2 ^ e) 0); try discriminate; nia.
      * destruct (Z.compare_spec (Zpos m * 2 ^ e) 1); try discriminate.
        -- assert (e = 0) by (destruct (Z.eq_dec e 0) as [|Hn]; [assumption |];
             assert (2 ^ 1 <= 2 ^ e) by (apply Z.pow_le_mono_r; lia);
             change (2 ^ 1) with 2 in *; nia).
           subst e. simpl in *. repeat split; lia.
        -- nia.
    + destruct s; cbn [cond_Zopp] in *.
      * destruct (Z.compare_spec (- Zpos m) (0 * 2 ^ (- e))); try discriminate; lia.
      * destruct (Z.compare_spec (Zpos m) (1 * 2 ^ (- e))); try discriminate;
          repeat split; lia.
Qed.

(** [score * 100] and [-score * 100] for a confidence in [0, 1]. *)
Lemma fmul_100_range c :
  int_le_num 0 (PyFloat c) = true -> num_le_int (PyFloat c) 1 = true ->
  in_range false (fmul c (float_of_int 100)) /\
  in_range true (fmul (fneg c) (float_of_int 100)).
Proof.
  intros H0 H1. rewrite float_of_int_100.
  destruct (unit_interval c H0 H1) as [[s ->] | (m & e & -> & He & Hm)].
  - split; exact I.
  - assert (Hb : ceil_of (shr_record_of_loc
                   (Zpos (m * 7036874417766400)) loc_Exact)
                 <= 25 * 2 ^ (2 - (e + -46))).
    { unfold ceil_of. cbn [shr_record_of_loc shr_m shr_r shr_s orb].
      rewrite Pos2Z.inj_mul.
      replace (2 - (e + -46)) with (48 + - e) by lia.
      rewrite Z.pow_add_r by lia. change (2 ^ 48) with 281474976710656. lia. }
    split; cbn [fneg SFopp fmul SFmul]; apply binary_round_aux_le_100;
      try assumption; lia.
Qed.

Lemma nearest_even_le n d k :
  0 < d -> n <= k * d -> nearest_even n d <= k.
Proof.
  intros Hd Hn. unfold nearest_even.
  pose proof (Z.div_mod n d ltac:(lia)) as E.
  pose proof (Z.mod_pos_bound n d Hd) as Hr.
  assert (Hq : n / d <= k) by nia.
  assert (Hq' : 0 < n mod d -> n / d + 1 <= k) by nia.
  destruct (Z.compare_spec (2 * (n mod d)) d); try destruct (Z.even (n / d));
    lia.
Qed.

(** The float nearest to [q / 100] for [q <= 10000]. *)
Lemma float_of_ratio_le_100 s q :
  Zpos q <= 10000 -> in_range s (float_of_ratio s q 100).
Proof.
  intros Hq. unfold float_of_ratio, SFdiv_core_binary.
  set (e' := Z.min (fexp prec emax (Zdigits2 (Zpos q) + 0 - (Zdigits2 100 + 0)))
                   (0 - 0)).
  assert (He : e' <= 0) by (subst e'; lia).
  set (m' := match 0 - 0 - e' with
             | 0 => Zpos q
             | Zpos _ => Z.shiftl (Zpos q) (0 - 0 - e')
             | Zneg _ => 0
             end).
  assert (Hm : m' = Zpos q * 2 ^ (- e')).
  { subst m'. replace (0 - 0 - e') with (- e') by lia.
    destruct (- e') as [|p|p] eqn:En; try lia.
    apply Z.shiftl_mul_pow2. lia. }
  assert (Hp : 0 < 2 ^ (- e')) by (apply Z.pow_pos_nonneg; lia).
  pose proof (Z.div_mod m' 100 ltac:(lia)) as E.
  pose proof (Z.mod_pos_bound m' 100 ltac:(lia)) as Hr.
  assert (Ed : Z.div_eucl m' 100 = (m' / 100, m' mod 100))
    by (unfold Z.div, Z.modulo; now destruct (Z.div_eucl m' 100)).
  rewrite Ed.
  assert (Hb : m' <= 10000 * 2 ^ (- e')) by nia.
  apply binary_round_aux_le_100; [apply Z.div_pos; lia | lia |].
  replace (2 - e') with (2 + - e') by lia.
  rewrite Z.pow_add_r by lia. change (2 ^ 2) with 4.
  unfold new_location. change (Z.even 100) with true. cbv iota.
  unfold new_location_even, ceil_of.
  destruct (Z.eqb_spec (m' mod 100) 0) as [Hz|Hz].
  - cbn [shr_record_of_loc shr_m shr_r shr_s orb]. lia.
  - destruct (2 * (m' mod 100) ?= 100);
      cbn [shr_record_of_loc shr_m shr_r shr_s orb]; lia.
Qed.

(** [round(x, 2)] keeps a magnitude of at most 100, and the sign. *)
Lemma round2_range neg x : in_range neg x -> in_range neg (round2 x).
Proof.
  destruct x as [s|s| |s m e]; try exact (fun H => H).
  intros (-> & He & Hm). unfold round2.
  assert (Hn : nearest_even (Zpos m * 100 * 2 ^ Z.max e 0) (2 ^ Z.max (- e) 0)
               <= 10000).
  { apply nearest_even_le; [apply Z.pow_pos_nonneg; lia |].
    destruct (Z.le_ge_cases 0 e) as [H|H].
    - rewrite (Z.max_l e 0), (Z.max_r (- e) 0) by lia.
      change (2 ^ 0) with 1.
      assert (2 ^ (2 - e) * 2 ^ e = 4)
        by (rewrite <- Z.pow_add_r by lia; now replace (2 - e + e) with 2 by lia).
      assert (0 < 2 ^ e) by (apply Z.pow_pos_nonneg; lia). nia.
    - rewrite (Z.max_r e 0), (Z.max_l (- e) 0) by lia.
      change (2 ^ 0) with 1.
      replace (2 - e) with (2 + - e) in Hm by lia.
      rewrite Z.pow_add_r in Hm by lia. change (2 ^ 2) with 4 in Hm. lia. }
  destruct (nearest_even _ _) as [|q|q]; try exact I.
  now apply float_of_ratio_le_100.
Qed.

Lemma in_range_nonneg x :
  in_range false x ->
  int_le_num 0 (PyFloat x) = true /\ num_le_int (PyFloat x) 100 = true
  /\ int_le_num (-100) (PyFloat x) = true.
Proof.
  destruct x as [s|s| |s m e]; cbn [in_range]; try contradiction.
  - intros _. split; [|split]; reflexivity.
  - intros (-> & He & Hm). cbn [int_le_num num_le_int float_cmp_int cond_Zopp].
    destruct (Z.leb_spec 0 e) as [H|H].
    + assert (2 ^ (2 - e) * 2 ^ e = 4)
        by (rewrite <- Z.pow_add_r by lia; now replace (2 - e + e) with 2 by lia).
      assert (0 < 2 ^ e) by (apply Z.pow_pos_nonneg; lia).
      split; [|split]; by_compare.
    + replace (2 - e) with (2 + - e) in Hm by lia.
      rewrite Z.pow_add_r in Hm by lia. change (2 ^ 2) with 4 in Hm.
      assert (0 < 2 ^ (- e)) by (apply Z.pow_pos_nonneg; lia).
      split; [|split]; by_compare.
Qed.

Lemma in_range_nonpos x :
  in_range true x ->
  int_le_num (-100) (PyFloat x) = true /\ num_le_int (PyFloat x) 0 = true
  /\ num_le_int (PyFloat x) 100 = true.
Proof.
  destruct x as [s|s| |s m e]; cbn [in_range]; try contradiction.
  - intros _. split; [|split]; reflexivity.
  - intros (-> & He & Hm). cbn [int_le_num num_le_int float_cmp_int cond_Zopp].
    destruct (Z.leb_spec 0 e) as [H|H].
    + assert (2 ^ (2 - e) * 2 ^ e = 4)
        by (rewrite <- Z.pow_add_r by lia; now replace (2 - e + e) with 2 by lia).
      assert (0 < 2 ^ e) by (apply Z.pow_pos_nonneg; lia).
      split; [|split]; by_compare.
    + replace (2 - e) with (2 + - e) in Hm by lia.
      rewrite Z.pow_add_r in Hm by lia. change (2 ^ 2) with 4 in Hm.
      assert (0 < 2 ^ (- e)) by (apply Z.pow_pos_nonneg; lia).
      split; [|split]; by_compare.
Qed.

End Rounding.

(** ** Reading traces *)

Lemma downloads_app a b : downloads (a ++ b) = downloads a ++ downloads b.
Proof. apply flat_map_app. Qed.

Lemma tables_app a b : tables (a ++ b) = tables a ++ tables b.
Proof. apply flat_map_app. Qed.

Lemma summaries_app a b : summaries (a ++ b) = summaries a ++ summaries b.
Proof. apply flat_map_app. Qed.

Lemma classifications_app a b :
  classifications (a ++ b) = classifications a ++ classifications b.
Proof. apply flat_map_app. Qed.

Lemma downloads_display x t : downloads (Display x :: t) = downloads t.
Proof. reflexivity. Qed.

Lemma summaries_display x t : summaries (Display x :: t) = summaries t.
Proof. reflexivity. Qed.

Lemma classifications_display x t :
  classifications (Display x :: t) = classifications t.
Proof. reflexivity. Qed.

Lemma tables_display x t :
  tables (Display x :: t) =
  match x with st_table df => df :: tables t | _ => tables t end.
Proof. now destruct x. Qed.

Lemma downloads_nil : downloads [] = [].
Proof. reflexivity. Qed.

Lemma tables_nil : tables [] = [].
Proof. reflexivity. Qed.

Lemma summaries_nil : summaries [] = [].
Proof. reflexivity. Qed.

Lemma classifications_nil : classifications [] = [].
Proof. reflexivity. Qed.

#[local] Hint Rewrite downloads_app tables_app summaries_app classifications_app
  downloads_display summaries_display classifications_display tables_display
  downloads_nil tables_nil summaries_nil classifications_nil : observe.

(** ** The pipeline *)

Section Claims.

Variable Sigma : Type.
Variable unicode_upper : char -> pystr.
Variable W : collaborators Sigma.

(** C1: when the extraction raises, or returns a text shorter than 100
    characters (the empty text included), [analyze_article] returns
    [(None, None, None)]; it returns, so no exception reaches the caller,
    and neither model is called. *)
Theorem analyze_article_gate url w :
  (exists e, fst (article_text W url w) = Raised e) \/
  (exists text, fst (article_text W url w) = Returned text /\ length text < 100) ->
  result (analyze_article unicode_upper W url w) = Returned (VNone, VNone, VNone)
  /\ summarizer_inputs (trace (analyze_article unicode_upper W url w)) = []
  /\ sentiment_inputs (trace (analyze_article unicode_upper W url w)) = [].
Proof.
  intros H.
  assert (G : passes_gate (fst (article_text W url w)) = false).
  { destruct H as [[e ->] | (text & -> & Hlen)]; [reflexivity |].
    apply Nat.leb_gt. exact Hlen. }
  rewrite (run_analyze_article_closed unicode_upper W url w G).
  destruct (fst (article_text W url w)); repeat split; reflexivity.
Qed.

(** C2: when the sentiment model answers label [L] with confidence [c],
    [analyze_sentiment] returns [L] with the importance
    [round(c * 100, 2)] if [L.upper() == "POSITIVE"] and
    [round(-c * 100, 2)] otherwise; ("POSITIVE", 0.87) gives 87.0 and
    ("NEGATIVE", 0.42) gives -42.0. *)
Theorem analyze_sentiment_importance text w L c w1 :
  sentiment_analyzer W (firstn 512 text) w = (Returned (L, c), w1) ->
  result (analyze_sentiment unicode_upper W text w) =
    Returned (L, PyFloat
      (if pystr_eqb (upper unicode_upper L) (lit "POSITIVE")
       then round2 (fmul c (float_of_int 100))
       else round2 (fmul (fneg c) (float_of_int 100))))
  /\ (L = lit "POSITIVE" -> c = float_of_ratio false 87 100 ->
      result (analyze_sentiment unicode_upper W text w) =
        Returned (L, PyFloat (float_of_int 87)))
  /\ (L = lit "NEGATIVE" -> c = float_of_ratio false 42 100 ->
      result (analyze_sentiment unicode_upper W text w) =
        Returned (L, PyFloat (fneg (float_of_int 42)))).
Proof.
  intros H. rewrite run_analyze_sentiment, H. unfold result, importance.
  cbn [fst]. repeat split.
  - now destruct (pystr_eqb (upper unicode_upper L) (lit "POSITIVE")).
  - intros -> ->. reflexivity.
  - intros -> ->. reflexivity.
Qed.

(** C5: the text [generate_summary] submits to the summariser has at most
    1024 whitespace-delimited tokens, and the text [analyze_sentiment]
    submits to the sentiment model is the prefix of its input made of
    its first 512 characters, or the whole input when that is shorter. *)
Theorem submitted_texts_truncated text w :
  (exists t, summarizer_inputs (trace (generate_summary W text w)) = [t]
             /\ length (split t) <= 1024)
  /\ sentiment_inputs (trace (analyze_sentiment unicode_upper W text w))
       = [firstn 512 text]
  /\ is_prefix (firstn 512 text) text
  /\ length (firstn 512 text) = Nat.min 512 (length text).
Proof.
  split; [| split; [| split]].
  - exists (summary_input text). split.
    + rewrite run_generate_summary.
      now destruct (summarizer W (summary_input text) 130 30 false w) as [[s|e] w1].
    + unfold summary_input.
      destruct (Nat.ltb_spec max_input (length (split text))) as [H|H].
      * rewrite split_join by apply Forall_firstn_tokens, split_tokens.
        apply length_firstn_le.
      * exact H.
  - rewrite run_analyze_sentiment.
    now destruct (sentiment_analyzer W (firstn 512 text) w) as [[[l c]|e] w1].
  - exists (skipn 512 text). symmetry. apply firstn_skipn.
  - apply length_firstn.
Qed.

(** C6: when the summarisation model raises, [generate_summary] returns
    the string "Summary generation failed." and raises nothing. *)
Theorem generate_summary_failure text w e w1 :
  summarizer W (summary_input text) 130 30 false w = (Raised e, w1) ->
  result (generate_summary W text w) = Returned (lit "Summary generation failed.").
Proof. intros H. now rewrite run_generate_summary, H. Qed.

(** C7: when the sentiment model raises, [analyze_sentiment] returns the
    pair ("N/A", 0) and raises nothing. *)
Theorem analyze_sentiment_failure text w e w1 :
  sentiment_analyzer W (firstn 512 text) w = (Raised e, w1) ->
  result (analyze_sentiment unicode_upper W text w) = Returned (lit "N/A", PyInt 0).
Proof. intros H. now rewrite run_analyze_sentiment, H. Qed.

(** C8: with models that answer a text in one way (the summariser when it
    does not sample), two calls of [generate_summary] on the same text
    return the same summary and two calls of [analyze_sentiment] the same
    label and importance, in whatever state of the world they are made. *)
Theorem repeated_calls_agree text w1 w2 :
  deterministic_summarizer W -> deterministic_sentiment W ->
  result (generate_summary W text w1) = result (generate_summary W text w2)
  /\ result (analyze_sentiment unicode_upper W text w1)
     = result (analyze_sentiment unicode_upper W text w2).
Proof.
  intros Hs Hc. split.
  - rewrite !run_generate_summary.
    specialize (Hs (summary_input text) 130%Z 30%Z w1 w2).
    destruct (summarizer W (summary_input text) 130 30 false w1) as [r1 v1].
    destruct (summarizer W (summary_input text) 130 30 false w2) as [r2 v2].
    cbn [fst] in Hs. subst r2. now destruct r1.
  - rewrite !run_analyze_sentiment.
    specialize (Hc (firstn 512 text) w1 w2).
    destruct (sentiment_analyzer W (firstn 512 text) w1) as [r1 v1].
    destruct (sentiment_analyzer W (firstn 512 text) w2) as [r2 v2].
    cbn [fst] in Hc. subst r2. now destruct r1 as [[l c]|e].
Qed.

Lemma importance_range label c :
  int_le_num 0 (PyFloat c) = true -> num_le_int (PyFloat c) 1 = true ->
  (pystr_eqb (upper unicode_upper label) (lit "POSITIVE") = true ->
   in_range false (round2 (importance unicode_upper label c))) /\
  (pystr_eqb (upper unicode_upper label) (lit "POSITIVE") = false ->
   in_range true (round2 (importance unicode_upper label c))).
Proof.
  intros H0 H1. destruct (fmul_100_range c H0 H1) as [Hp Hn].
  unfold importance.
  split; intros ->; now apply round2_range.
Qed.

Lemma upper_POSITIVE :
  pystr_eqb (upper unicode_upper (lit "POSITIVE")) (lit "POSITIVE") = true.
Proof. reflexivity. Qed.

Lemma upper_NEGATIVE :
  pystr_eqb (upper unicode_upper (lit "NEGATIVE")) (lit "POSITIVE") = false.
Proof. reflexivity. Qed.

(** What [analyze_sentiment] returns with a binary classifier: the
    label and a score between -100 and 100 whose sign agrees with it. *)
Lemma analyze_sentiment_range text w :
  binary_classifier W ->
  exists label score,
    result (analyze_sentiment unicode_upper W text w) = Returned (label, score)
    /\ int_le_num (-100) score = true /\ num_le_int score 100 = true
    /\ ((label = lit "POSITIVE" /\ int_le_num 0 score = true)
        \/ (label = lit "NEGATIVE" /\ num_le_int score 0 = true)
        \/ (label = lit "N/A" /\ score = PyInt 0)).
Proof.
  intros HW. rewrite run_analyze_sentiment.
  destruct (sentiment_analyzer W (firstn 512 text) w) as [[[label c]|e] w1] eqn:E.
  - destruct (HW _ _ _ _ _ E) as ([-> | ->] & H0 & H1);
      destruct (importance_range (lit "POSITIVE") c H0 H1) as [Hp _];
      destruct (importance_range (lit "NEGATIVE") c H0 H1) as [_ Hn];
      do 2 eexists; (split; [reflexivity |]).
    + destruct (in_range_nonneg _ (Hp upper_POSITIVE)) as (G0 & G1 & G2).
      repeat split; auto.
    + destruct (in_range_nonpos _ (Hn upper_NEGATIVE)) as (G0 & G1 & G2).
      repeat split; auto.
  - do 2 eexists. split; [reflexivity |]. repeat split; auto.
Qed.

(** C3: when the extraction returns a text of at least 100 characters,
    and the sentiment model is a binary classifier with a confidence in
    [0, 1], [analyze_article] returns a summary that is a string, a label
    among POSITIVE, NEGATIVE and N/A, and a number between -100 and
    100. *)
Theorem analyze_article_success url w text w1 :
  binary_classifier W ->
  article_text W url w = (Returned text, w1) ->
  100 <= length text ->
  exists summary label score,
    result (analyze_article unicode_upper W url w)
      = Returned (VStr summary, VStr label, VNum score)
    /\ (label = lit "POSITIVE" \/ label = lit "NEGATIVE" \/ label = lit "N/A")
    /\ int_le_num (-100) score = true
    /\ num_le_int score 100 = true.
Proof.
  intros HW E Hlen.
  assert (G : passes_gate (Returned text) = true) by now apply Nat.leb_le.
  destruct (run_analyze_article_open unicode_upper W url w E G)
    as (summary & label & score & _ & Ha & ->).
  destruct (analyze_sentiment_range text
              (world_after (generate_summary W text w1)) HW)
    as (label' & score' & Ha' & Hlo & Hhi & Hr).
  rewrite Ha in Ha'. injection Ha' as <- <-.
  exists summary, label, score. split; [reflexivity |].
  repeat split; auto.
  destruct Hr as [[-> _] | [[-> _] | [-> _]]]; auto.
Qed.

(** C4: with a binary classifier whose confidence is in [0, 1], the sign
    of the importance [analyze_sentiment] returns agrees with the label it
    returns: at least 0 with POSITIVE, at most 0 with NEGATIVE, equal to
    0 with N/A. *)
Theorem sign_matches_label text w :
  binary_classifier W ->
  exists label score,
    result (analyze_sentiment unicode_upper W text w) = Returned (label, score)
    /\ (label = lit "POSITIVE" -> int_le_num 0 score = true)
    /\ (label = lit "NEGATIVE" -> num_le_int score 0 = true)
    /\ (label = lit "N/A" -> num_eq_int score 0 = true).
Proof.
  intros HW.
  destruct (analyze_sentiment_range text w HW)
    as (label & score & Ha & _ & _ & Hr).
  exists label, score. split; [exact Ha |].
  destruct Hr as [[-> H] | [[-> H] | [-> ->]]];
    repeat split; intros E; try discriminate E; auto.
Qed.



(** *** The table of the batch mode *)

(** What one call of [analyze_article] leaves in the trace. *)
Lemma analyze_article_trace url w :
  let run := analyze_article unicode_upper W url w in
  let d := fst (article_text W url w) in
  downloads (trace run) = [(url, d)] /\ tables (trace run) = [] /\
  if passes_gate d then
    exists summary label score r c,
      result run = Returned (summary, label, score)
      /\ is_none summary = false
      /\ summaries (trace run) = [r] /\ summary = shown_summary r
      /\ classifications (trace run) = [c] /\ label = shown_label c
      /\ score = shown_score unicode_upper c
  else
    result run = Returned (VNone, VNone, VNone)
    /\ summaries (trace run) = [] /\ classifications (trace run) = [].
Proof.
  intros run d. subst run d.
  unfold analyze_article, bind. rewrite run_extract_article_text.
  destruct (article_text W url w) as [[text|e] w1]; cbn [fst]; cbv beta iota;
    [| repeat split; reflexivity].
  rewrite too_short_gate.
  destruct (passes_gate (Returned text)); cbn [negb];
    [| repeat split; reflexivity].
  rewrite run_generate_summary.
  destruct (summarizer W (summary_input text) 130 30 false w1) as [[s|e] w2];
    cbv beta iota; rewrite run_analyze_sentiment;
    destruct (sentiment_analyzer W (firstn 512 text) w2) as [[[l c]|e'] w3];
    (split; [reflexivity |]); (split; [reflexivity |]);
    do 5 eexists; repeat split; reflexivity.
Qed.

(** One turn of the loop over the preloaded articles. *)
Lemma run_for_articles_cons title url rest acc w :
  for_articles unicode_upper W ((title, url) :: rest) acc w =
  let '(r, w1, t1) := analyze_article unicode_upper W url w in
  let opening :=
    [Display (st_subheader title);
     Display (st_write [VStr (lit "[Read the article](" ++ url ++ lit ")")])] in
  match r with
  | Returned (summary, sentiment_label, importance_score) =>
      if is_none summary then
        let '(r2, w2, t2) := for_articles unicode_upper W rest acc w1 in
        (r2, w2,
         opening ++ t1 ++
         [Display (st_error (lit
            "Failed to extract article text or article is too short for analysis."))]
         ++ t2)
      else
        let '(r2, w2, t2) :=
          for_articles unicode_upper W rest
            (acc ++ [{| Title := title; URL := url; Summary := summary;
                        Sentiment := sentiment_label;
                        Importance_Score := importance_score |}]) w1 in
        (r2, w2,
         opening ++ t1 ++
         [Display (st_write [VStr (lit "**Summary:**"); summary]);
          Display (st_write [VStr (lit "**Sentiment:**"); sentiment_label]);
          Display (st_write [VStr (lit "**Importance Score:**"); importance_score]);
          Display (st_markdown (lit "---"))]
         ++ t2)
  | Raised e => (Raised e, w1, opening ++ t1)
  end.
Proof.
  cbn [for_articles]. unfold bind, st, ret.
  destruct (analyze_article unicode_upper W url w)
    as [[[[[summary label] score]|e] w1] t1]; [| reflexivity].
  destruct (is_none summary).
  - destruct (for_articles unicode_upper W rest acc w1) as [[r2 w2] t2].
    reflexivity.
  - destruct (for_articles unicode_upper W rest _ w1) as [[r2 w2] t2].
    reflexivity.
Qed.


(** The loop returns the rows of the articles that passed the gate, in
    the order of the articles. *)
Lemma for_articles_rows items : forall acc w,
  let run := for_articles unicode_upper W items acc w in
  exists rows,
    result run = Returned (acc ++ rows)
    /\ map fst (downloads (trace run)) = map snd items
    /\ tables (trace run) = []
    /\ map row_source rows = passed_articles items (downloads (trace run))
    /\ map Summary rows = map shown_summary (summaries (trace run))
    /\ map Sentiment rows = map shown_label (classifications (trace run))
    /\ map Importance_Score rows
       = map (shown_score unicode_upper) (classifications (trace run)).
Proof.
  induction items as [|[title url] rest IH]; intros acc w run; subst run.
  - exists []. rewrite app_nil_r. repeat split; reflexivity.
  - rewrite run_for_articles_cons.
    pose proof (analyze_article_trace url w) as H. cbv zeta in H.
    destruct (analyze_article unicode_upper W url w) as [[r w1] t1].
    unfold result, trace in H. cbn [fst snd] in H.
    destruct H as (Hd & Ht & H).
    destruct (passes_gate (fst (article_text W url w))) eqn:G.
    + destruct H as (summary & label & score & rs & c & -> & Hn & Hs & -> & Hc & -> & ->).
      cbv zeta beta iota. rewrite Hn.
      match goal with
      | |- context [for_articles unicode_upper W rest ?a w1] =>
          destruct (IH a w1) as (rows & Hr & Hf & Htb & Hp & Hsum & Hl & Hsc);
          destruct (for_articles unicode_upper W rest a w1) as [[r2 w2] t2]
      end.
      unfold result, trace in *. cbn [fst snd] in *.
      eexists (_ :: rows). rewrite Hr, <- app_assoc.
      split; [reflexivity |]. observe.
      rewrite Hd, Ht, Hs, Hc, Htb. cbn [app map fst snd].
      unfold passed_articles. cbn [combine filter snd]. rewrite G.
      cbn [map fst]. fold (passed_articles rest (downloads t2)).
      rewrite Hf, Hp, Hsum, Hl, Hsc. repeat split; reflexivity.
    + destruct H as (-> & Hs & Hc).
      cbv zeta beta iota. cbn [is_none].
      destruct (IH acc w1) as (rows & Hr & Hf & Htb & Hp & Hsum & Hl & Hsc).
      destruct (for_articles unicode_upper W rest acc w1) as [[r2 w2] t2].
      unfold result, trace in *. cbn [fst snd] in *.
      exists rows. split; [exact Hr |]. observe.
      rewrite Hd, Ht, Hs, Hc, Htb. cbn [app map fst snd].
      unfold passed_articles. cbn [combine filter snd]. rewrite G.
      fold (passed_articles rest (downloads t2)).
      rewrite Hf. repeat split; assumption.
Qed.

(** C9: the "Preloaded Articles" branch returns normally; it downloads
    each article once, in order; its rows are those of the articles whose
    download returned a text of at least 100 characters, one each and in
    order, with the summary, label and score shown for the outcomes of
    the two models (the placeholders when a model raised); and the table
    is rendered, once and with these rows, exactly when there is such a
    row. *)
Theorem batch_table items w :
  let run := preloaded_mode unicode_upper W items w in
  exists rows,
    result run = Returned tt
    /\ map fst (downloads (trace run)) = map snd items
    /\ map row_source rows = passed_articles items (downloads (trace run))
    /\ length rows = length (passed_articles items (downloads (trace run)))
    /\ map Summary rows = map shown_summary (summaries (trace run))
    /\ map Sentiment rows = map shown_label (classifications (trace run))
    /\ map Importance_Score rows
       = map (shown_score unicode_upper) (classifications (trace run))
    /\ tables (trace run) = match rows with [] => [] | _ => [rows] end.
Proof.
  intros run. subst run. unfold preloaded_mode, bind, st, ret.
  destruct (for_articles_rows items [] w)
    as (rows & Hr & Hf & Htb & Hp & Hsum & Hl & Hsc).
  destruct (for_articles unicode_upper W items [] w) as [[r w1] t1].
  unfold result, trace in *. cbn [fst snd app] in *. subst r.
  exists rows.
  assert (Hlen : length rows = length (passed_articles items (downloads t1)))
    by (rewrite <- Hp; symmetry; apply length_map).
  destruct rows as [|r0 rows]; cbn [fst snd]; observe;
    rewrite ?Htb, ?app_nil_r; repeat split; assumption || reflexivity.
Qed.

End Claims.

(** ** The claims at work *)

Lemma working_world_binary : binary_classifier working_world.
Proof.
  intros text w label score w1 H.
  unfold working_world in H. cbn [sentiment_analyzer] in H.
  destruct (hd 0%N text =? 110)%N; inversion H; subst;
    repeat split; auto.
Qed.

Lemma working_world_deterministic :
  deterministic_summarizer working_world /\ deterministic_sentiment working_world.
Proof. split; red; intros; reflexivity. Qed.

Lemma long_text_length : 100 <= length long_text.
Proof. apply Nat.leb_le. reflexivity. Qed.



(** C1 with the network down. *)
Lemma analyze_article_gate_witness :
  ((exists e, fst (article_text broken_world first_url 0) = Raised e) \/
   (exists text, fst (article_text broken_world first_url 0) = Returned text
                 /\ length text < 100))
  /\ result (analyze_article no_table broken_world first_url 0)
     = Returned (VNone, VNone, VNone).
Proof.
  assert (H : (exists e, fst (article_text broken_world first_url 0) = Raised e) \/
              (exists text, fst (article_text broken_world first_url 0) = Returned text
                            /\ length text < 100))
    by (left; eexists; reflexivity).
  split; [exact H |].
  exact (proj1 (analyze_article_gate no_table broken_world first_url 0 H)).
Defined.

(** C2 on a text the working sentiment model finds positive with
    confidence 0.87. *)
Lemma analyze_sentiment_importance_witness :
  sentiment_analyzer working_world (firstn 512 long_text) 0
    = (Returned (lit "POSITIVE", float_of_ratio false 87 100), 1)
  /\ result (analyze_sentiment no_table working_world long_text 0)
     = Returned (lit "POSITIVE", PyFloat (float_of_int 87)).
Proof.
  assert (H : sentiment_analyzer working_world (firstn 512 long_text) 0
              = (Returned (lit "POSITIVE", float_of_ratio false 87 100), 1))
    by reflexivity.
  split; [exact H |].
  exact (proj1 (proj2 (analyze_sentiment_importance no_table working_world
                         long_text 0 H)) eq_refl eq_refl).
Defined.

(** C3 on the first preloaded article. *)
Lemma analyze_article_success_witness :
  binary_classifier working_world
  /\ article_text working_world first_url 0 = (Returned long_text, 1)
  /\ 100 <= length long_text
  /\ exists summary label score,
       result (analyze_article no_table working_world first_url 0)
         = Returned (VStr summary, VStr label, VNum score)
       /\ (label = lit "POSITIVE" \/ label = lit "NEGATIVE" \/ label = lit "N/A")
       /\ int_le_num (-100) score = true
       /\ num_le_int score 100 = true.
Proof.
  split; [exact working_world_binary |].
  split; [reflexivity |].
  split; [exact long_text_length |].
  exact (analyze_article_success no_table first_url 0
           working_world_binary eq_refl long_text_length).
Defined.

(** C4 on the same text. *)
Lemma sign_matches_label_witness :
  binary_classifier working_world
  /\ exists label score,
       result (analyze_sentiment no_table working_world long_text 0)
         = Returned (label, score)
       /\ (label = lit "POSITIVE" -> int_le_num 0 score = true)
       /\ (label = lit "NEGATIVE" -> num_le_int score 0 = true)
       /\ (label = lit "N/A" -> num_eq_int score 0 = true).
Proof.
  split; [exact working_world_binary |].
  exact (sign_matches_label no_table long_text 0 working_world_binary).
Defined.

(** C6 and C7 with models that raise. *)
Lemma generate_summary_failure_witness :
  summarizer broken_world (summary_input long_text) 130 30 false 0
    = (Raised (lit "index out of range"), 1)
  /\ result (generate_summary broken_world long_text 0)
     = Returned (lit "Summary generation failed.").
Proof.
  split; [reflexivity |].
  exact (generate_summary_failure broken_world long_text 0 eq_refl).
Defined.

Lemma analyze_sentiment_failure_witness :
  sentiment_analyzer broken_world (firstn 512 long_text) 0
    = (Raised (lit "out of memory"), 1)
  /\ result (analyze_sentiment no_table broken_world long_text 0)
     = Returned (lit "N/A", PyInt 0).
Proof.
  split; [reflexivity |].
  exact (analyze_sentiment_failure no_table broken_world long_text 0 eq_refl).
Defined.

(** C8: a second call, in the world the first call left, agrees with the
    first. *)
Lemma repeated_calls_agree_witness :
  deterministic_summarizer working_world /\ deterministic_sentiment working_world
  /\ result (generate_summary working_world long_text 0)
     = result (generate_summary working_world long_text 1)
  /\ result (analyze_sentiment no_table working_world long_text 0)
     = result (analyze_sentiment no_table working_world long_text 1).
Proof.
  split; [exact (proj1 working_world_deterministic) |].
  split; [exact (proj2 working_world_deterministic) |].
  exact (repeated_calls_agree no_table long_text 0 1
           (proj1 working_world_deterministic)
           (proj2 working_world_deterministic)).
Defined.






(** ** Runs of the page *)

(** The working world: the second article is too short, two rows. *)
Example batch_working :
  map (map Title)
      (tables (trace (preloaded_mode no_table working_world preloaded_articles 0)))
  = [[lit "BBC Article 1"; lit "BBC Article 3"]].
Proof. vm_compute. reflexivity. Qed.

(** No download succeeds: no table. *)
Example batch_broken :
  tables (trace (preloaded_mode no_table broken_world preloaded_articles 0)) = [].
Proof. vm_compute. reflexivity. Qed.

(** Both models raise: three rows with the placeholders. *)
Example batch_degraded :
  map (map (fun r => (Summary r, Sentiment r, Importance_Score r)))
      (tables (trace (preloaded_mode no_table degraded_world preloaded_articles 0)))
  = [repeat (VStr (lit "Summary generation failed."), VStr (lit "N/A"),
             VNum (PyInt 0)) 3].
Proof. vm_compute. reflexivity. Qed.

(** A page of 14 characters does not pass. *)
Example gate_short_text :
  fst (article_text working_world second_url 0) = Returned (lit "Page not found")
  /\ result (analyze_article no_table working_world second_url 0)
     = Returned (VNone, VNone, VNone).
Proof. split; reflexivity. Qed.

(** The sentiment model sees 512 characters of a word of 600. *)
Example sentiment_cuts_a_word :
  sentiment_inputs
    (trace (analyze_sentiment no_table working_world (repeat 97%N 600) 0))
  = [repeat 97%N 512].
Proof. vm_compute. reflexivity. Qed.

(** The comparison of the label ignores case, by the rules of Unicode. *)
Example label_lower_case :
  importance no_table (lit "positive") f_0_87 = float_of_int 87.
Proof. vm_compute. reflexivity. Qed.

Example label_dotless_i :
  upper dotless_table [112; 111; 115; 305; 116; 305; 118; 101]%N = lit "POSITIVE".
Proof. vm_compute. reflexivity. Qed.

(** The literals of the scenarios. *)
Example literal_0_87 : float_of_ratio false 87 100 = f_0_87.
Proof. vm_compute. reflexivity. Qed.

Example literal_0_42 : float_of_ratio false 42 100 = f_0_42.
Proof. vm_compute. reflexivity. Qed.

Example negative_0_42 :
  round2 (importance no_table (lit "NEGATIVE") f_0_42) = fneg (float_of_int 42).
Proof. vm_compute. reflexivity. Qed.

(** Ties go to the even neighbour of the exact binary value. *)
Example round2_tie : round2 (float_of_ratio false 125 1000) = float_of_ratio false 12 100.
Proof. vm_compute. reflexivity. Qed.

Example round2_negative_zero : round2 (float_of_ratio true 1 1000) = S754_zero true.
Proof. vm_compute. reflexivity. Qed.

(** * More of the pipeline *)

(** ** One article *)

Lemma calls_displays l t : calls (map Display l ++ t) = calls t.
Proof. induction l as [|x l IH]; simpl; auto. Qed.

Lemma displayed_displays l t :
  displayed (map Display l ++ t) = l ++ displayed t.
Proof. induction l as [|x l IH]; simpl; [| rewrite IH]; reflexivity. Qed.

Section OneArticle.

Variable Sigma : Type.
Variable unicode_upper : char -> pystr.
Variable W : collaborators Sigma.

(** A whole run of [analyze_article], read off the answers of the three
    collaborators. *)
Lemma run_analyze_article url w :
  analyze_article unicode_upper W url w =
  let '(d, w1) := article_text W url w in
  if passes_gate d then
    let text := match d with Returned text => text | Raised _ => [] end in
    let '(r, w2) := summarizer W (summary_input text) 130 30 false w1 in
    let '(c, w3) := sentiment_analyzer W (firstn 512 text) w2 in
    (Returned (shown_summary r, shown_label c, shown_score unicode_upper c), w3,
     Download url d
     :: Summarize (summary_input text) 130 30 false r
     :: map Display (report "Error in summarization: " r)
     ++ Classify (firstn 512 text) c
     :: map Display (report "Error in sentiment analysis: " c))
  else
    (Returned (VNone, VNone, VNone), w1,
     Download url d :: map Display (report "Error fetching article: " d)).
Proof.
  unfold analyze_article, bind. rewrite run_extract_article_text.
  destruct (article_text W url w) as [[text|e] w1]; cbv beta iota;
    [| reflexivity].
  rewrite too_short_gate.
  destruct (passes_gate (Returned text)); cbn [negb]; [| reflexivity].
  rewrite run_generate_summary.
  destruct (summarizer W (summary_input text) 130 30 false w1) as [[s|e] w2];
    cbv beta iota; rewrite run_analyze_sentiment;
    destruct (sentiment_analyzer W (firstn 512 text) w2) as [[[l c]|e'] w3];
    reflexivity.
Qed.

(** X1: when the download passes the length check, [analyze_article]
    returns the summary, the label and the score that the answers of the
    two models give, each on its own: a model that raises only puts the
    placeholder in its own field, and the sentiment model is asked in the
    world the summariser left, also after the summariser raised. *)
Theorem analyze_article_result url w text w1 :
  article_text W url w = (Returned text, w1) ->
  100 <= length text ->
  let s := summarizer W (summary_input text) 130 30 false w1 in
  let c := sentiment_analyzer W (firstn 512 text) (snd s) in
  result (analyze_article unicode_upper W url w)
    = Returned (shown_summary (fst s), shown_label (fst c),
                shown_score unicode_upper (fst c))
  /\ world_after (analyze_article unicode_upper W url w) = snd c.
Proof.
  intros E Hlen s c. subst s c. rewrite run_analyze_article, E.
  cbv beta iota.
  replace (passes_gate (Returned text)) with true
    by (symmetry; now apply Nat.leb_le).
  cbv beta iota zeta.
  destruct (summarizer W (summary_input text) 130 30 false w1) as [r w2].
  cbn [fst snd].
  destruct (sentiment_analyzer W (firstn 512 text) w2) as [c w3].
  split; reflexivity.
Qed.

(** X3: the calls of [analyze_article], in order: one download of the URL;
    then, only when it returned at least 100 characters, one call of the
    summariser on the truncated text with [max_length=130], [min_length=30]
    and [do_sample=False], and after it one call of the sentiment model on
    the first 512 characters of the text as downloaded (not of the text
    truncated for the summariser). *)
Theorem analyze_article_calls url w :
  let d := article_text W url w in
  calls (trace (analyze_article unicode_upper W url w)) =
  Download url (fst d) ::
  match fst d with
  | Returned text =>
      if Nat.leb 100 (length text) then
        let s := summarizer W (summary_input text) 130 30 false (snd d) in
        let c := sentiment_analyzer W (firstn 512 text) (snd s) in
        [Summarize (summary_input text) 130 30 false (fst s);
         Classify (firstn 512 text) (fst c)]
      else []
  | Raised _ => []
  end.
Proof.
  intros d. subst d. rewrite run_analyze_article.
  destruct (article_text W url w) as [[text|e] w1]; cbn [fst snd passes_gate];
    [| reflexivity].
  destruct (Nat.leb 100 (length text)); [| reflexivity].
  cbv beta iota zeta.
  destruct (summarizer W (summary_input text) 130 30 false w1) as [r w2].
  cbn [fst snd].
  destruct (sentiment_analyzer W (firstn 512 text) w2) as [c w3].
  cbn [fst snd trace calls filter is_call].
  change (filter is_call ?l) with (calls l).
  rewrite calls_displays. cbn [calls filter is_call].
  change (filter is_call ?l) with (calls l).
  rewrite <- (app_nil_r (map Display _)), calls_displays. reflexivity.
Qed.

(** X4: what [analyze_article] displays is the report of each exception
    it caught, with the text of the exception, and nothing else: the
    download's when it raised, otherwise the summariser's and then the
    sentiment model's when the text was long enough. *)
Theorem analyze_article_reports url w :
  let d := article_text W url w in
  displayed (trace (analyze_article unicode_upper W url w)) =
  match fst d with
  | Raised e => [st_error (lit "Error fetching article: " ++ e)]
  | Returned text =>
      if Nat.leb 100 (length text) then
        let s := summarizer W (summary_input text) 130 30 false (snd d) in
        let c := sentiment_analyzer W (firstn 512 text) (snd s) in
        report "Error in summarization: " (fst s)
        ++ report "Error in sentiment analysis: " (fst c)
      else []
  end.
Proof.
  intros d. subst d. rewrite run_analyze_article.
  destruct (article_text W url w) as [[text|e] w1]; cbn [fst snd passes_gate];
    [| reflexivity].
  destruct (Nat.leb 100 (length text)); [| reflexivity].
  cbv beta iota zeta.
  destruct (summarizer W (summary_input text) 130 30 false w1) as [r w2].
  cbn [fst snd].
  destruct (sentiment_analyzer W (firstn 512 text) w2) as [c w3].
  cbn [fst snd trace displayed flat_map app].
  change (flat_map _ ?l) with (displayed l).
  rewrite displayed_displays. cbn [displayed flat_map app].
  change (flat_map _ ?l) with (displayed l).
  rewrite <- (app_nil_r (map Display _)), displayed_displays.
  cbn [displayed flat_map]. now rewrite app_nil_r.
Qed.

End OneArticle.

(** ** The truncation for the summariser *)

Lemma length_join_cons sep w ws :
  length (join sep (w :: ws)) =
  length w + match ws with [] => 0 | _ => length sep + length (join sep ws) end.
Proof.
  destruct ws as [|v ws]; [simpl; lia |].
  change (join sep (w :: v :: ws)) with (w ++ sep ++ join sep (v :: ws)).
  now rewrite !length_app.
Qed.

Lemma length_join_firstn sep n ws :
  length (join sep (firstn n ws)) <= length (join sep ws).
Proof.
  revert n; induction ws as [|w ws IH]; intros [|n]; cbn [firstn];
    try (simpl; lia).
  rewrite !length_join_cons. specialize (IH n).
  destruct ws as [|v ws]; [now rewrite firstn_nil |].
  destruct (firstn n (v :: ws)); lia.
Qed.

Lemma length_join_split_from s : forall tok,
  length (join (lit " ") (split_from tok s)) <= length tok + length s.
Proof.
  induction s as [|c s IH]; intros tok; cbn [split_from].
  - destruct tok; simpl; lia.
  - destruct (isspace c).
    + specialize (IH []). destruct tok as [|a tok]; cbn [flush app length] in *.
      * lia.
      * rewrite length_join_cons. cbn [length].
        destruct (split_from [] s); cbn [length lit] in *; simpl in *; lia.
    + specialize (IH (tok ++ [c])). rewrite length_app in IH.
      cbn [length] in *. lia.
Qed.

(** X5: the words the summariser is given are always the first 1024 words
    of the text, and truncating what was truncated changes nothing. *)
Theorem summary_input_tokens text :
  split (summary_input text) = firstn 1024 (split text)
  /\ summary_input (summary_input text) = summary_input text.
Proof.
  assert (T : split (summary_input text) = firstn 1024 (split text)).
  { unfold summary_input.
    destruct (Nat.ltb_spec max_input (length (split text))) as [H|H].
    - apply split_join, Forall_firstn_tokens, split_tokens.
    - symmetry. apply firstn_all2. exact H. }
  split; [exact T |].
  unfold summary_input at 1. rewrite T.
  destruct (Nat.ltb_spec max_input (length (firstn 1024 (split text)))) as [H|H];
    [| reflexivity].
  pose proof (length_firstn_le 1024 (split text)). unfold max_input in H. lia.
Qed.

(** X6: the text given to the summariser is never longer than the text
    [generate_summary] received. *)
Theorem summary_input_length text :
  length (summary_input text) <= length text.
Proof.
  unfold summary_input.
  destruct (Nat.ltb max_input (length (split text))); [| lia].
  etransitivity; [apply length_join_firstn |].
  apply (length_join_split_from text []).
Qed.

(** ** The sign of the score *)

Lemma binary_round_aux_opp s m e l :
  binary_round_aux prec emax (negb s) m e l
  = SFopp (binary_round_aux prec emax s m e l).
Proof.
  unfold binary_round_aux.
  destruct (shr_fexp prec emax m e l) as [mrs1 e1].
  destruct (shr_fexp prec emax _ e1 loc_Exact) as [mrs2 e2].
  destruct (shr_m mrs2); try reflexivity.
  now destruct (Z.leb e2 (emax - prec)).
Qed.

Lemma fmul_opp_100 c :
  fmul (fneg c) (float_of_int 100) = fneg (fmul c (float_of_int 100)).
Proof.
  rewrite float_of_int_100. unfold fmul, fneg.
  destruct c as [s|s| |s m e]; cbn [SFopp SFmul]; try reflexivity;
    try (now destruct s).
  destruct s; [exact (binary_round_aux_opp true _ _ _)
              | exact (binary_round_aux_opp false _ _ _)].
Qed.

Lemma round2_opp x : round2 (fneg x) = fneg (round2 x).
Proof.
  destruct x as [s|s| |s m e]; try reflexivity.
  unfold fneg. cbn [SFopp round2].
  destruct (nearest_even _ _); try reflexivity.
  unfold float_of_ratio.
  destruct (SFdiv_core_binary prec emax _ 0 100 0) as [[mz ez] lz].
  apply binary_round_aux_opp.
Qed.

(** X7: the score of a verdict that is not POSITIVE is exactly the negation
    of the score the same confidence gets with POSITIVE, for every float:
    the product and [round(x, 2)] round the magnitude, whatever the
    sign. *)
Theorem score_negation unicode_upper label score :
  round2 (importance unicode_upper label score) =
  if pystr_eqb (upper unicode_upper label) (lit "POSITIVE")
  then round2 (fmul score (float_of_int 100))
  else fneg (round2 (fmul score (float_of_int 100))).
Proof.
  unfold importance.
  destruct (pystr_eqb (upper unicode_upper label) (lit "POSITIVE"));
    [reflexivity |].
  now rewrite fmul_opp_100, round2_opp.
Qed.

(** X8: whatever label the sentiment model gives, a confidence between 0
    and 1 gives a score between -100 and 100, at least 0 when the label is
    POSITIVE up to case and at most 0 for every other label. *)
Theorem analyze_sentiment_any_label Sigma unicode_upper
    (W : collaborators Sigma) text w label c w1 :
  sentiment_analyzer W (firstn 512 text) w = (Returned (label, c), w1) ->
  int_le_num 0 (PyFloat c) = true -> num_le_int (PyFloat c) 1 = true ->
  exists score,
    result (analyze_sentiment unicode_upper W text w) = Returned (label, score)
    /\ int_le_num (-100) score = true /\ num_le_int score 100 = true
    /\ (if pystr_eqb (upper unicode_upper label) (lit "POSITIVE")
        then int_le_num 0 score = true else num_le_int score 0 = true).
Proof.
  intros E H0 H1. rewrite run_analyze_sentiment, E.
  eexists. split; [reflexivity |].
  destruct (importance_range unicode_upper label c H0 H1) as [Hp Hn].
  destruct (pystr_eqb (upper unicode_upper label) (lit "POSITIVE")).
  - destruct (in_range_nonneg _ (Hp eq_refl)) as (G0 & G1 & G2). auto.
  - destruct (in_range_nonpos _ (Hn eq_refl)) as (G0 & G1 & G2). auto.
Qed.

(** ** The display of the batch mode *)

Lemma failure_notice_shown :
  is_failure_notice (st_error (lit
    "Failed to extract article text or article is too short for analysis."))
  = true.
Proof. reflexivity. Qed.

Section BatchDisplay.

Variable Sigma : Type.
Variable unicode_upper : char -> pystr.
Variable W : collaborators Sigma.

(** [analyze_article] displays no notice, no subheader and no table. *)
Lemma analyze_article_quiet url w :
  let run := analyze_article unicode_upper W url w in
  notices (trace run) = [] /\ subheaders (trace run) = []
  /\ tables (trace run) = []
  /\ exists summary label score,
       result run = Returned (summary, label, score)
       /\ is_none summary = negb (passes_gate (fst (article_text W url w))).
Proof.
  intros run. subst run. rewrite run_analyze_article.
  destruct (article_text W url w) as [d w1]. cbn [fst].
  destruct (passes_gate d) eqn:G; cbv zeta.
  - destruct (summarizer W _ 130 30 false w1) as [r w2].
    destruct (sentiment_analyzer W _ w2) as [c w3].
    destruct r, c as [[l x]|e']; repeat split; try reflexivity;
      do 3 eexists; split; reflexivity.
  - destruct d; repeat split; try reflexivity;
      do 3 eexists; split; reflexivity.
Qed.

(** The loop gives every article its subheader, and a row or a notice. *)
Lemma for_articles_display items : forall acc w,
  let run := for_articles unicode_upper W items acc w in
  exists rows,
    result run = Returned (acc ++ rows)
    /\ tables (trace run) = []
    /\ length (notices (trace run)) + length rows = length items
    /\ subheaders (trace run) = map fst items
    /\ length rows = length (passed_articles items (downloads (trace run))).
Proof.
  induction items as [|[title url] rest IH]; intros acc w run; subst run.
  - exists []. rewrite app_nil_r. repeat split; reflexivity.
  - rewrite run_for_articles_cons.
    pose proof (analyze_article_quiet url w) as H. cbv zeta in H.
    pose proof (analyze_article_trace unicode_upper W url w) as H'.
    cbv zeta in H'. destruct H' as (Hd & _ & _).
    destruct (analyze_article unicode_upper W url w) as [[r w1] t1].
    unfold result, trace in H, Hd. cbn [fst snd] in H, Hd.
    destruct H as (Hn & Hs & Ht & summary & label & score & -> & Hnone).
    cbv zeta beta iota.
    destruct (is_none summary) eqn:En.
    + destruct (IH acc w1) as (rows & Hr & Htb & Hc & Hsub & Hp).
      destruct (for_articles unicode_upper W rest acc w1) as [[r2 w2] t2].
      unfold result, trace in *. cbn [fst snd] in *.
      exists rows. split; [exact Hr |].
      unfold notices, displayed, subheaders, tables, passed_articles, downloads in *.
      rewrite !flat_map_app, !filter_app, !length_app.
      rewrite Hn, Hs, Ht, Htb, Hsub, Hd.
      cbn [flat_map app filter length map fst snd combine].
      rewrite failure_notice_shown.
      cbn [is_failure_notice flat_map app filter length map fst snd combine].
      replace (passes_gate (fst (article_text W url w))) with false
        by (destruct (passes_gate _); [discriminate Hnone | reflexivity]).
      repeat split; try reflexivity; try lia.
    + match goal with
      | |- context [for_articles unicode_upper W rest ?a w1] =>
          destruct (IH a w1) as (rows & Hr & Htb & Hc & Hsub & Hp);
          destruct (for_articles unicode_upper W rest a w1) as [[r2 w2] t2]
      end.
      unfold result, trace in *. cbn [fst snd] in *.
      eexists (_ :: rows). rewrite Hr, <- app_assoc.
      split; [reflexivity |].
      unfold notices, displayed, subheaders, tables, passed_articles, downloads in *.
      rewrite !flat_map_app, !filter_app, !length_app.
      rewrite Hn, Hs, Ht, Htb, Hsub, Hd.
      cbn [is_failure_notice flat_map app filter length map fst snd combine].
      replace (passes_gate (fst (article_text W url w))) with true
        by (destruct (passes_gate _); [reflexivity | discriminate Hnone]).
      cbn [map fst length].
      repeat split; try reflexivity; try lia.
Qed.

(** X9: in the batch mode every article is accounted for once: the number
    of rows of the table and the number of notices "Failed to extract
    article text or article is too short for analysis." add up to the
    number of articles, whatever the collaborators do. *)
Theorem batch_accounts items w :
  let run := preloaded_mode unicode_upper W items w in
  length (concat (tables (trace run))) + length (notices (trace run))
    = length items
  /\ length (concat (tables (trace run)))
     = length (passed_articles items (downloads (trace run))).
Proof.
  intros run. subst run. unfold preloaded_mode, bind, st, ret.
  destruct (for_articles_display items [] w)
    as (rows & Hr & Htb & Hc & Hsub & Hp).
  destruct (for_articles unicode_upper W items [] w) as [[r w1] t1].
  unfold result, trace in *. cbn [fst snd app] in *. subst r.
  unfold notices, displayed, tables, downloads in *.
  destruct rows as [|r0 rows]; cbn [fst snd flat_map app filter];
    rewrite ?flat_map_app, ?filter_app, ?length_app, ?Htb;
    cbn [flat_map app filter is_failure_notice concat length] in *;
    rewrite ?app_nil_r; split; lia.
Qed.

(** X10: the batch mode displays one subheader per article, in the order
    of the articles and also for the articles that fail, and the table,
    when there is one, is the last thing displayed, under the subheader
    "Tabulated Results". *)
Theorem batch_layout items w :
  let run := preloaded_mode unicode_upper W items w in
  match tables (trace run) with
  | [] => subheaders (trace run) = map fst items
  | df :: _ =>
      subheaders (trace run) = map fst items ++ [lit "Tabulated Results"]
      /\ exists before,
           trace run = before ++ [Display (st_subheader (lit "Tabulated Results"));
                                  Display (st_table df)]
           /\ tables before = []
  end.
Proof.
  intros run. subst run. unfold preloaded_mode, bind, st, ret.
  destruct (for_articles_display items [] w)
    as (rows & Hr & Htb & Hc & Hsub & Hp).
  destruct (for_articles unicode_upper W items [] w) as [[r w1] t1].
  unfold result, trace in *. cbn [fst snd app] in *. subst r.
  destruct rows as [|r0 rows]; cbn [fst snd app].
  - replace (tables (Display (st_header (lit "Preloaded BBC Articles Analysis"))
                       :: t1 ++ [])) with (@nil (list row))
      by (rewrite app_nil_r; symmetry; exact Htb).
    rewrite app_nil_r. exact Hsub.
  - replace (tables (Display (st_header (lit "Preloaded BBC Articles Analysis"))
               :: t1 ++ [Display (st_subheader (lit "Tabulated Results"));
                         Display (st_table (r0 :: rows))]))
      with [r0 :: rows]
      by (unfold tables in *; cbn [flat_map app]; rewrite flat_map_app, Htb;
          reflexivity).
    split.
    + unfold subheaders in *. cbn [flat_map app]. rewrite flat_map_app, Hsub.
      reflexivity.
    + exists (Display (st_header (lit "Preloaded BBC Articles Analysis")) :: t1).
      split; [reflexivity | exact Htb].
Qed.

End BatchDisplay.

(** ** The page *)

Lemma inner_events_app a b :
  inner_events (a ++ b) = inner_events a ++ inner_events b.
Proof. apply flat_map_app. Qed.

Lemma page_widgets_app a b :
  page_widgets (a ++ b) = page_widgets a ++ page_widgets b.
Proof. apply flat_map_app. Qed.

Lemma inner_events_inner t : inner_events (map Inner t) = t.
Proof. induction t as [|ev t IH]; simpl; [| rewrite IH]; reflexivity. Qed.

Lemma page_widgets_inner t : page_widgets (map Inner t) = [].
Proof. induction t as [|ev t IH]; simpl; auto. Qed.

Lemma truthy_nonempty s : truthy s = true <-> s <> [].
Proof. destruct s; simpl; split; congruence. Qed.

Section PageRuns.

Variable Sigma : Type.
Variable unicode_upper : char -> pystr.
Variable W : collaborators Sigma.
Variable user : session.

(** A run of the "Custom URL" branch. *)
Lemma run_custom_mode w :
  custom_mode unicode_upper W user w =
  let opening :=
    [Inner (Display (st_header (lit "Custom BBC Article Analysis")));
     Widget (st_text_input (lit "Enter the URL of a BBC article:") (typed_url user));
     Widget (st_button (lit "Generate Analysis") (button_pressed user))] in
  if button_pressed user && truthy (typed_url user) then
    let '(r, w1, t1) := analyze_article unicode_upper W (typed_url user) w in
    match r with
    | Returned (summary, sentiment_label, importance_score) =>
        (Returned tt, w1,
         opening ++ map Inner t1 ++
         map Inner
           (if is_none summary then
              [Display (st_error (lit
                 "Failed to extract article text or the article text is too short for analysis."))]
            else
              [Display (st_write [VStr (lit "**Summary:**"); summary]);
               Display (st_write [VStr (lit "**Sentiment:**"); sentiment_label]);
               Display (st_write [VStr (lit "**Importance Score:**");
                                  importance_score]);
               Display (st_success (lit "Analysis complete!"))]))
    | Raised e => (Raised e, w1, opening ++ map Inner t1)
    end
  else (Returned tt, w, opening).
Proof.
  unfold custom_mode, page_bind, inner, text_input, button, page_ret, st.
  cbv beta iota zeta.
  destruct (button_pressed user && truthy (typed_url user)); [| reflexivity].
  destruct (analyze_article unicode_upper W (typed_url user) w)
    as [[[[[summary label] score]|e] w1] t1]; [| reflexivity].
  destruct (is_none summary); cbn [map app]; rewrite ?app_nil_r; reflexivity.
Qed.

(** A run of the page. *)
Lemma run_page w :
  page unicode_upper W user w =
  let opening :=
    [Widget (st_title (lit "BBC News Article Analysis"));
     Inner (Display (st_write [VStr intro_text]));
     Widget (st_sidebar_radio (lit "Select Analysis Mode")
               [lit "Preloaded Articles"; lit "Custom URL"] (selected_mode user))] in
  if pystr_eqb (selected_mode user) (lit "Preloaded Articles") then
    let '(r, w1, t1) := preloaded_mode unicode_upper W preloaded_articles w in
    (r, w1, opening ++ map Inner t1)
  else if pystr_eqb (selected_mode user) (lit "Custom URL") then
    let '(r, w1, t1) := custom_mode unicode_upper W user w in
    (r, w1, opening ++ t1)
  else (Returned tt, w, opening).
Proof.
  unfold page, page_bind, inner, title, sidebar_radio, page_ret, st.
  cbv beta iota zeta.
  destruct (pystr_eqb (selected_mode user) (lit "Preloaded Articles")).
  - destruct (preloaded_mode unicode_upper W preloaded_articles w)
      as [[[[]|e] w1] t1]; reflexivity.
  - destruct (pystr_eqb (selected_mode user) (lit "Custom URL")); [| reflexivity].
    destruct (custom_mode unicode_upper W user w) as [[[[]|e] w1] t1];
      reflexivity.
Qed.

Lemma preloaded_mode_returns items w :
  result (preloaded_mode unicode_upper W items w) = Returned tt.
Proof.
  unfold preloaded_mode, bind, st, ret.
  destruct (for_articles_display unicode_upper W items [] w) as (rows & Hr & _).
  destruct (for_articles unicode_upper W items [] w) as [[r w1] t1].
  unfold result in *. cbn [fst snd app] in *. subst r.
  now destruct rows.
Qed.

Lemma custom_mode_returns w :
  page_result (custom_mode unicode_upper W user w) = Returned tt.
Proof.
  rewrite run_custom_mode. cbv zeta.
  destruct (button_pressed user && truthy (typed_url user)); [| reflexivity].
  destruct (analyze_article_quiet unicode_upper W (typed_url user) w)
    as (_ & _ & _ & summary & label & score & Hr & _).
  destruct (analyze_article unicode_upper W (typed_url user) w) as [[r w1] t1].
  unfold result in Hr. cbn [fst] in Hr. subst r. reflexivity.
Qed.

(** X11: from its title on, no [Exception] raised by the download or by
    one of the two models ends the run: whatever the user has set, and
    whether each call to a collaborator returns or raises an [Exception],
    the script returns, the calls to Streamlit being taken to return.
    Every call to a collaborator sits in a handler for [Exception]; what
    such a handler does not catch is outside this statement. *)
Theorem page_returns w :
  page_result (page unicode_upper W user w) = Returned tt.
Proof.
  rewrite run_page. cbv zeta.
  destruct (pystr_eqb (selected_mode user) (lit "Preloaded Articles")).
  - pose proof (preloaded_mode_returns preloaded_articles w) as H.
    destruct (preloaded_mode unicode_upper W preloaded_articles w) as [[r w1] t1].
    exact H.
  - destruct (pystr_eqb (selected_mode user) (lit "Custom URL")); [| reflexivity].
    pose proof (custom_mode_returns w) as H.
    destruct (custom_mode unicode_upper W user w) as [[r w1] t1]. exact H.
Qed.

(** X12: in the "Custom URL" mode nothing is downloaded and no model is
    called until the button is pressed with a URL in the text field: the
    run calls no collaborator, leaves the world as it was and displays the
    introduction and the header only. *)
Theorem custom_mode_idle w :
  selected_mode user = lit "Custom URL" ->
  button_pressed user = false \/ typed_url user = [] ->
  calls (inner_events (page_trace (page unicode_upper W user w))) = []
  /\ page_world (page unicode_upper W user w) = w
  /\ displayed (inner_events (page_trace (page unicode_upper W user w)))
     = [st_write [VStr intro_text];
        st_header (lit "Custom BBC Article Analysis")].
Proof.
  intros Hm Hidle. rewrite run_page, Hm. cbv zeta.
  change (pystr_eqb (lit "Custom URL") (lit "Preloaded Articles")) with false.
  change (pystr_eqb (lit "Custom URL") (lit "Custom URL")) with true.
  cbv iota. rewrite run_custom_mode. cbv zeta.
  replace (button_pressed user && truthy (typed_url user)) with false
    by (destruct Hidle as [-> | ->]; [reflexivity | now rewrite andb_false_r]).
  repeat split.
Qed.

(** X13: in the "Custom URL" mode, with the button pressed and a URL in the
    text field, the run is one analysis of that URL: its calls are those of
    [analyze_article] on it; after the reports of the analysis it displays
    the summary, the label, the score and "Analysis complete!" when the
    download passed the length check, and otherwise the notice that the
    extraction failed or the text is too short, and no table in either
    case. *)
Theorem custom_mode_analysis w :
  selected_mode user = lit "Custom URL" ->
  button_pressed user = true ->
  typed_url user <> [] ->
  let run := page unicode_upper W user w in
  let a := analyze_article unicode_upper W (typed_url user) w in
  calls (inner_events (page_trace run)) = calls (trace a)
  /\ page_world run = world_after a
  /\ tables (inner_events (page_trace run)) = []
  /\ exists summary label score,
       result a = Returned (summary, label, score)
       /\ displayed (inner_events (page_trace run)) =
          [st_write [VStr intro_text];
           st_header (lit "Custom BBC Article Analysis")]
          ++ displayed (trace a)
          ++ (if passes_gate (fst (article_text W (typed_url user) w)) then
                [st_write [VStr (lit "**Summary:**"); summary];
                 st_write [VStr (lit "**Sentiment:**"); label];
                 st_write [VStr (lit "**Importance Score:**"); score];
                 st_success (lit "Analysis complete!")]
              else
                [st_error (lit
                   "Failed to extract article text or the article text is too short for analysis.")]).
Proof.
  intros Hm Hb Hu run a. subst run a. rewrite run_page, Hm. cbv zeta.
  change (pystr_eqb (lit "Custom URL") (lit "Preloaded Articles")) with false.
  change (pystr_eqb (lit "Custom URL") (lit "Custom URL")) with true.
  cbv iota. rewrite run_custom_mode, Hb. cbv zeta.
  replace (truthy (typed_url user)) with true
    by (symmetry; now apply truthy_nonempty).
  cbn [andb].
  destruct (analyze_article_quiet unicode_upper W (typed_url user) w)
    as (_ & _ & Ht & summary & label & score & Hr & Hn).
  destruct (analyze_article unicode_upper W (typed_url user) w) as [[r w1] t1].
  unfold result, trace, world_after, page_trace, page_world in *.
  cbn [fst snd] in *. subst r. cbv iota. cbn [fst snd].
  rewrite !inner_events_app, !inner_events_inner.
  cbn [inner_events flat_map app].
  split; [| split; [reflexivity | split]].
  - unfold calls. cbn [filter is_call]. rewrite filter_app.
    destruct (is_none summary); cbn [filter is_call]; now rewrite app_nil_r.
  - unfold tables in *. cbn [flat_map app]. rewrite flat_map_app, Ht.
    now destruct (is_none summary).
  - exists summary, label, score. split; [reflexivity |].
    unfold displayed. cbn [flat_map app]. rewrite flat_map_app.
    destruct (passes_gate (fst (article_text W (typed_url user) w)));
      cbn [negb] in Hn; rewrite Hn; reflexivity.
Qed.

(** X14: in the "Preloaded Articles" mode the run is the batch over the
    three preloaded articles: the text field and the button are not
    rendered, what the user typed plays no part, and the downloads are
    those of the three preloaded URLs, in order. *)
Theorem preloaded_mode_page w :
  selected_mode user = lit "Preloaded Articles" ->
  let run := page unicode_upper W user w in
  page_widgets (page_trace run) =
    [st_title (lit "BBC News Article Analysis");
     st_sidebar_radio (lit "Select Analysis Mode")
       [lit "Preloaded Articles"; lit "Custom URL"] (lit "Preloaded Articles")]
  /\ inner_events (page_trace run) =
     Display (st_write [VStr intro_text])
     :: trace (preloaded_mode unicode_upper W preloaded_articles w)
  /\ map fst (downloads (inner_events (page_trace run)))
     = map snd preloaded_articles.
Proof.
  intros Hm run. subst run. rewrite run_page, Hm. cbv zeta.
  change (pystr_eqb (lit "Preloaded Articles") (lit "Preloaded Articles"))
    with true.
  cbv iota.
  destruct (for_articles_rows unicode_upper W preloaded_articles [] w)
    as (rows & _ & Hf & _).
  assert (Hd : map fst (downloads
                 (trace (preloaded_mode unicode_upper W preloaded_articles w)))
               = map snd preloaded_articles).
  { revert Hf. unfold preloaded_mode, bind, st, ret.
    destruct (for_articles unicode_upper W preloaded_articles [] w)
      as [[[rs|e] w1] t1]; unfold trace; cbn [fst snd]; intros Hf.
    - destruct rs; cbn [fst snd]; autorewrite with observe; cbn [app];
        rewrite ?app_nil_r; exact Hf.
    - exact Hf. }
  destruct (preloaded_mode unicode_upper W preloaded_articles w) as [[r w1] t1].
  unfold page_trace, trace in *. cbn [fst snd] in *.
  rewrite page_widgets_app, inner_events_app, page_widgets_inner,
    inner_events_inner.
  repeat split; assumption.
Qed.

End PageRuns.

(** ** The properties at work *)

(** X1 on the first preloaded article. *)
Lemma analyze_article_result_witness :
  article_text working_world first_url 0 = (Returned long_text, 1)
  /\ 100 <= length long_text
  /\ result (analyze_article no_table working_world first_url 0)
     = Returned (VStr (firstn 30 long_text), VStr (lit "POSITIVE"),
                 VNum (PyFloat (float_of_int 87))).
Proof.
  split; [reflexivity |]. split; [exact long_text_length |].
  exact (proj1 (analyze_article_result no_table working_world first_url 0
                  eq_refl long_text_length)).
Defined.

(** X8 with the label NEUTRAL: the score is negative. *)
Lemma analyze_sentiment_any_label_witness :
  sentiment_analyzer neutral_world (firstn 512 long_text) 0
    = (Returned (lit "NEUTRAL", f_0_42), 1)
  /\ int_le_num 0 (PyFloat f_0_42) = true
  /\ num_le_int (PyFloat f_0_42) 1 = true
  /\ exists score,
       result (analyze_sentiment no_table neutral_world long_text 0)
         = Returned (lit "NEUTRAL", score)
       /\ int_le_num (-100) score = true /\ num_le_int score 100 = true
       /\ num_le_int score 0 = true.
Proof.
  split; [reflexivity |]. split; [reflexivity |]. split; [reflexivity |].
  exact (analyze_sentiment_any_label no_table neutral_world long_text 0
           eq_refl eq_refl eq_refl).
Defined.

(** X12 with a URL typed and the button not pressed. *)
Lemma custom_mode_idle_witness :
  selected_mode idle_session = lit "Custom URL"
  /\ (button_pressed idle_session = false \/ typed_url idle_session = [])
  /\ calls (inner_events (page_trace (page no_table working_world idle_session 0)))
     = []
  /\ page_world (page no_table working_world idle_session 0) = 0.
Proof.
  split; [reflexivity |]. split; [left; reflexivity |].
  pose proof (custom_mode_idle no_table working_world idle_session 0
                eq_refl (or_introl eq_refl)) as H.
  exact (conj (proj1 H) (proj1 (proj2 H))).
Defined.

(** X13 with the button pressed on the first preloaded URL. *)
Lemma custom_mode_analysis_witness :
  selected_mode custom_session = lit "Custom URL"
  /\ button_pressed custom_session = true
  /\ typed_url custom_session <> []
  /\ calls (inner_events (page_trace (page no_table working_world custom_session 0)))
     = calls (trace (analyze_article no_table working_world first_url 0))
  /\ tables (inner_events (page_trace (page no_table working_world custom_session 0)))
     = [].
Proof.
  assert (Hu : typed_url custom_session <> []) by discriminate.
  split; [reflexivity |]. split; [reflexivity |]. split; [exact Hu |].
  pose proof (custom_mode_analysis no_table working_world custom_session 0
                eq_refl eq_refl Hu) as H.
  exact (conj (proj1 H) (proj1 (proj2 (proj2 H)))).
Defined.

(** X14 with a URL typed and the button pressed all the same. *)
Lemma preloaded_mode_page_witness :
  selected_mode batch_session = lit "Preloaded Articles"
  /\ map fst (downloads (inner_events
       (page_trace (page no_table working_world batch_session 0))))
     = map snd preloaded_articles.
Proof.
  split; [reflexivity |].
  exact (proj2 (proj2 (preloaded_mode_page no_table working_world batch_session 0
                         eq_refl))).
Defined.

(** The page with the network down: the notice, and no success. *)
Example custom_mode_broken :
  displayed (inner_events (page_trace (page no_table broken_world custom_session 0)))
  = [st_write [VStr intro_text];
     st_header (lit "Custom BBC Article Analysis");
     st_error (lit "Error fetching article: timed out");
     st_error (lit
       "Failed to extract article text or the article text is too short for analysis.")].
Proof. vm_compute. reflexivity. Qed.

(** Both models raise: two reports, the placeholders, and success. *)
Example custom_mode_degraded :
  displayed (inner_events (page_trace (page no_table degraded_world custom_session 0)))
  = [st_write [VStr intro_text];
     st_header (lit "Custom BBC Article Analysis");
     st_error (lit "Error in summarization: index out of range");
     st_error (lit "Error in sentiment analysis: out of memory");
     st_write [VStr (lit "**Summary:**"); VStr (lit "Summary generation failed.")];
     st_write [VStr (lit "**Sentiment:**"); VStr (lit "N/A")];
     st_write [VStr (lit "**Importance Score:**"); VNum (PyInt 0)];
     st_success (lit "Analysis complete!")].
Proof. vm_compute. reflexivity. Qed.

(** Truncation on 1025 words keeps 1024 of them, on 2047 characters. *)
Example summary_input_spaced :
  length (split (summary_input spaced_text)) = 1024
  /\ length (summary_input spaced_text) = 2047
  /\ length spaced_text = 2049.
Proof. vm_compute. repeat split. Qed.
